(** * DiscordCheckinBot: the interaction handler of [checkin_bot_main.py]

    A shallow embedding of the Lambda entry point [lambda_handler] and of its
    helpers [verify_signature], [get_location_suggestions] and
    [send_interaction_response], followed by the properties the
    specification states about them.

    Conventions of the embedding:
    - a Python [str] is a Rocq [string] holding its UTF-8 bytes, so that
      [str.encode()] is the identity on the underlying bytes and
      [urllib.parse.quote] works byte by byte;
    - a value decoded from JSON is a [json]; a JSON object is the list of its
      bindings in insertion order, looked up by key (keys are distinct after
      [json.loads]); numbers are the integers, which is what the interaction
      [type] field and the [flags] field hold;
    - a Python exception is a constructor of [exn], and code that can raise
      returns a [result];
    - the two outbound HTTP calls are recorded, in order, in the trace carried
      by the monad [M];
    - what lives outside the repository (PyNaCl, [json], [requests], [str()] of
      a non-string) is a field of the record [world]. *)

From Stdlib Require Import String Ascii ZArith List Bool Lia DecimalString.
From stdpp Require Import base option list strings gmap.
Import ListNotations.

Set Warnings "-register-all".

Local Open Scope string_scope.
Local Open Scope Z_scope.

(** ** Values and exceptions *)

Inductive json : Type :=
| JNull
| JBool (b : bool)
| JNum (n : Z)
| JStr (s : string)
| JArr (xs : list json)
| JObj (kvs : list (string * json)).

(** The exception classes that the modelled code can meet.  [KeyError]
    carries the missing key. *)
Inductive exn : Type :=
| KeyError (k : json)
| IndexError
| TypeError
| AttributeError
| ValueError
| BadSignatureError
| JSONDecodeError
| RequestException.

Inductive result (A : Type) : Type :=
| Ok (a : A)
| Raise (e : exn).
Arguments Ok {A} a.
Arguments Raise {A} e.

Definition rbind {A B} (r : result A) (f : A -> result B) : result B :=
  match r with
  | Ok a => f a
  | Raise e => Raise e
  end.

Fixpoint rmap_list {A B} (f : A -> result B) (xs : list A) : result (list B) :=
  match xs with
  | [] => Ok []
  | x :: xs' =>
      rbind (f x) (fun y => rbind (rmap_list f xs') (fun ys => Ok (y :: ys)))
  end.

(** ** Python operations on decoded JSON *)

Module Py.

(** [bool(v)]: the test of [if v:], of [not v] and of [v or ...]. *)
Definition truthy (v : json) : bool :=
  match v with
  | JNull => false
  | JBool b => b
  | JNum n => negb (n =? 0)
  | JStr s => negb (String.eqb s "")
  | JArr xs => match xs with [] => false | _ :: _ => true end
  | JObj kvs => match kvs with [] => false | _ :: _ => true end
  end.

(** Lookup of a key among the bindings of a dict. *)
Fixpoint assoc (k : string) (kvs : list (string * json)) : option json :=
  match kvs with
  | [] => None
  | (k', v) :: rest => if String.eqb k k' then Some v else assoc k rest
  end.

(** [v[k]] for a string key [k]. *)
Definition subscript (v : json) (k : string) : result json :=
  match v with
  | JObj kvs =>
      match assoc k kvs with
      | Some x => Ok x
      | None => Raise (KeyError (JStr k))
      end
  | _ => Raise TypeError
  end.

(** [v.get(k, d)]: only a dict has the method. *)
Definition get (v : json) (k : string) (d : json) : result json :=
  match v with
  | JObj kvs => Ok (default d (assoc k kvs))
  | _ => Raise AttributeError
  end.

(** A continuation byte of a UTF-8 sequence: [10xxxxxx]. *)
Definition is_continuation (c : ascii) : bool :=
  let n := N_of_ascii c in (128 <=? n)%N && (n <? 192)%N.

(** The characters (code points) of a string, each as a string. *)
Fixpoint chars_aux (cur : string) (s : string) : list string :=
  match s with
  | EmptyString => [cur]
  | String c rest =>
      if is_continuation c
      then chars_aux (cur +:+ String c EmptyString) rest
      else cur :: chars_aux (String c EmptyString) rest
  end.

Definition chars (s : string) : list string :=
  match s with
  | EmptyString => []
  | String c rest => chars_aux (String c EmptyString) rest
  end.

(** [v[0]] *)
Definition index0 (v : json) : result json :=
  match v with
  | JArr (x :: _) => Ok x
  | JArr [] => Raise IndexError
  | JStr s =>
      match chars s with
      | c :: _ => Ok (JStr c)
      | [] => Raise IndexError
      end
  | JObj _ => Raise (KeyError (JNum 0))
  | _ => Raise TypeError
  end.

(** [v[:n]]: lists and strings can be sliced; a dict raises [TypeError]
    (an unhashable slice, Python 3.11), the other values are not
    subscriptable. *)
Definition slice_to (n : nat) (v : json) : result json :=
  match v with
  | JArr xs => Ok (JArr (firstn n xs))
  | JStr s => Ok (JStr (String.concat "" (firstn n (chars s))))
  | _ => Raise TypeError
  end.

(** The items that [for x in v] visits: the elements of a list, the
    characters of a string, the keys of a dict. *)
Definition iterate (v : json) : result (list json) :=
  match v with
  | JArr xs => Ok xs
  | JStr s => Ok (map JStr (chars s))
  | JObj kvs => Ok (map (fun kv => JStr (fst kv)) kvs)
  | _ => Raise TypeError
  end.

(** [v == s] for a string literal [s]. *)
Definition eq_str (v : json) (s : string) : bool :=
  match v with
  | JStr t => String.eqb t s
  | _ => false
  end.

(** [v == n] for an integer literal [n]; [True == 1] and [False == 0]. *)
Definition eq_int (v : json) (n : Z) : bool :=
  match v with
  | JNum m => m =? n
  | JBool b => (if b then 1 else 0) =? n
  | _ => false
  end.

End Py.

(** ** Library functions on strings and bytes *)

(** [bytes.fromhex]: two hexadecimal digits per byte, ASCII whitespace
    between the bytes skipped; anything else is a [ValueError]. *)
Module Hex.

Definition is_space (c : ascii) : bool :=
  let n := N_of_ascii c in (n =? 32)%N || ((9 <=? n)%N && (n <=? 13)%N).

Definition digit_value (c : ascii) : option N :=
  let n := N_of_ascii c in
  if (48 <=? n)%N && (n <=? 57)%N then Some (n - 48)%N
  else if (97 <=? n)%N && (n <=? 102)%N then Some (n - 87)%N
  else if (65 <=? n)%N && (n <=? 70)%N then Some (n - 55)%N
  else None.

Definition byte_of_digits (top bot : N) : Byte.byte :=
  byte_of_ascii (ascii_of_N (top * 16 + bot)).

Fixpoint fromhex (s : string) : result (list Byte.byte) :=
  match s with
  | EmptyString => Ok []
  | String c rest =>
      if is_space c then fromhex rest
      else
        match digit_value c, rest with
        | Some top, String d rest' =>
            match digit_value d with
            | Some bot =>
                rbind (fromhex rest') (fun bs => Ok (byte_of_digits top bot :: bs))
            | None => Raise ValueError
            end
        | _, _ => Raise ValueError
        end
  end.

End Hex.

(** [urllib.parse.quote(s)] with its default [safe='/']: the letters, the
    digits and [_.-~/] stand for themselves, every other byte of the UTF-8
    encoding becomes [%XX] with upper-case hexadecimal digits. *)
Module Quote.

Definition always_safe (c : ascii) : bool :=
  let n := N_of_ascii c in
  ((65 <=? n)%N && (n <=? 90)%N) || ((97 <=? n)%N && (n <=? 122)%N)
  || ((48 <=? n)%N && (n <=? 57)%N)
  || Ascii.eqb c "_" || Ascii.eqb c "." || Ascii.eqb c "-" || Ascii.eqb c "~".

Definition safe (c : ascii) : bool := always_safe c || Ascii.eqb c "/".

Definition hex_digit (n : N) : ascii :=
  if (n <? 10)%N then ascii_of_N (48 + n) else ascii_of_N (55 + n).

Definition quote_byte (c : ascii) : string :=
  if safe c then String c EmptyString
  else
    let n := N_of_ascii c in
    String "%" (String (hex_digit (n / 16)) (String (hex_digit (n mod 16)) EmptyString)).

Fixpoint quote (s : string) : string :=
  match s with
  | EmptyString => EmptyString
  | String c rest => quote_byte c +:+ quote rest
  end.

End Quote.

(** ** The world outside the repository *)

Record http_response := { status_code : Z; text : string }.

(** An outbound HTTP call, as the handler issues it. *)
Inductive call : Type :=
| RequestsGet (url : string) (params : list (string * json))
| RequestsPost (url : string) (headers : list (string * string)) (payload : json).

(** The configuration read at start-up and the behaviour of the libraries the
    handler calls.  Every theorem below holds for every [world]. *)
Record world := {
  (** the secrets fetched by [get_discord_secrets] and [get_google_secrets] *)
  PUBLIC_KEY : string;
  GOOGLE_MAPS_API_KEY : string;
  (** [nacl.signing.VerifyKey(key, encoder=HexEncoder)] *)
  VerifyKey : string -> result (list Byte.byte);
  (** [verify_key.verify(message, signature)] *)
  VerifyKey_verify : list Byte.byte -> list Byte.byte -> list Byte.byte -> result (list Byte.byte);
  (** [json.loads] and [json.dumps] *)
  json_loads : string -> result json;
  json_dumps : json -> string;
  (** [requests.get(url, params=...)] and [requests.post(url, headers=..., json=...)] *)
  requests_get : string -> list (string * json) -> result http_response;
  requests_post : string -> list (string * string) -> json -> result http_response;
  (** [str(v)] for a value [v] that is not a string *)
  py_str : json -> string
}.

(** The event API Gateway (payload format 2.0) hands to the Lambda: the
    request headers, and the body when the request has one. *)
Record event := { ev_headers : gmap string string; ev_body : option string }.

Record response := {
  statusCode : Z;
  resp_headers : option (list (string * string));
  resp_body : string
}.

(** ** Exceptions and outbound calls as a monad *)

#[global] Instance result_ret : MRet result := fun A a => Ok a.
#[global] Instance result_bind : MBind result := fun A B f r => rbind r f.

(** A computation yields the outbound calls it made, in order, and either a
    value or the exception that ended it. *)
Definition M (A : Type) : Type := (list call * result A)%type.

#[global] Instance M_ret : MRet M := fun A a => ([], Ok a).
#[global] Instance M_bind : MBind M := fun A B f m =>
  match m with
  | (tr, Ok a) => let '(tr', r) := f a in ((tr ++ tr')%list, r)
  | (tr, Raise e) => (tr, Raise e)
  end.

(** A step that makes no outbound call. *)
Definition lift {A} (r : result A) : M A := ([], r).

(** An outbound call [c] whose outcome is [r]. *)
Definition perform {A} (c : call) (r : result A) : M A := ([c], r).

Definition calls {A} (m : M A) : list call := fst m.
Definition outcome {A} (m : M A) : result A := snd m.

(** ** The handler *)

Definition dq : string := String (ascii_of_nat 34) EmptyString.
Definition nl : string := String (ascii_of_nat 10) EmptyString.

Section Handler.
Context (W : world).

(** [f"{v}"] *)
Definition format (v : json) : string :=
  match v with
  | JStr s => s
  | _ => py_str W v
  end.

(** [try: ... except nacl.exceptions.BadSignatureError: return False] *)
Definition except_BadSignatureError (r : result bool) : result bool :=
  match r with
  | Raise BadSignatureError => Ok false
  | _ => r
  end.

Definition verify_signature (ev : event) : result bool :=
  let signature := default "" (ev_headers ev !! "x-signature-ed25519") in
  let timestamp := default "" (ev_headers ev !! "x-signature-timestamp") in
  let body := default "" (ev_body ev) in
  except_BadSignatureError
    (verify_key ← VerifyKey W (PUBLIC_KEY W);
     sig ← Hex.fromhex signature;
     _ ← VerifyKey_verify W verify_key (list_byte_of_string (timestamp +:+ body)) sig;
     mret true).

Definition places_url : string :=
  "https://maps.googleapis.com/maps/api/place/autocomplete/json".

Definition get_location_suggestions (input_text : json) : M (list json) :=
  if negb (Py.truthy input_text) then mret []
  else
    let params := [("key", JStr (GOOGLE_MAPS_API_KEY W)); ("input", input_text)] in
    response ← perform (RequestsGet places_url params) (requests_get W places_url params);
    data ← lift (json_loads W (text response));
    predictions ← lift (Py.get data "predictions" (JArr []));
    first5 ← lift (Py.slice_to 5 predictions);
    ps ← lift (Py.iterate first5);
    lift (rmap_list (fun p => Py.subscript p "description") ps).

Definition callback_url (interaction_id interaction_token : json) : string :=
  "https://discord.com/api/v10/interactions/" +:+ format interaction_id
    +:+ "/" +:+ format interaction_token +:+ "/callback".

Definition send_interaction_response
    (interaction_id interaction_token message_data : json) : M unit :=
  let url := callback_url interaction_id interaction_token in
  let headers := [("Content-Type", "application/json")] in
  resp ← perform (RequestsPost url headers message_data)
                  (requests_post W url headers message_data);
  mret ().

(** *** The pieces of [lambda_handler] *)

(** One turn of the loop over the options: [st] holds
    [(location_value, message_value)]. *)
Definition scan_option (st : json * json) (opt : json) : result (json * json) :=
  name ← Py.subscript opt "name";
  if Py.eq_str name "location" then
    v ← Py.subscript opt "value"; mret (v, st.2)
  else if Py.eq_str name "message" then
    v ← Py.subscript opt "value"; mret (st.1, v)
  else mret st.

Fixpoint scan_options (st : json * json) (opts : list json) : result (json * json) :=
  match opts with
  | [] => Ok st
  | opt :: rest => st' ← scan_option st opt; scan_options st' rest
  end.

(** [body["member"].get("nick") or body["member"]["user"]["username"]] *)
Definition display_name_of (body : json) : result json :=
  member ← Py.subscript body "member";
  nick ← Py.get member "nick" JNull;
  if Py.truthy nick then mret nick
  else
    member' ← Py.subscript body "member";
    user ← Py.subscript member' "user";
    Py.subscript user "username".

(** [urllib.parse.quote(v)]: a value that is not a string is refused. *)
Definition quote_value (v : json) : result string :=
  match v with
  | JStr s => Ok (Quote.quote s)
  | _ => Raise TypeError
  end.

Definition map_url (encoded_location : string) : string :=
  "https://maps.googleapis.com/maps/api/staticmap?"
    +:+ "center=" +:+ encoded_location
    +:+ "&zoom=15"
    +:+ "&size=600x300"
    +:+ "&markers=color:red|" +:+ encoded_location
    +:+ "&key=" +:+ GOOGLE_MAPS_API_KEY W.

Definition search_url (encoded_location : string) : string :=
  "https://www.google.com/maps/search/?api=1&query=" +:+ encoded_location.

Definition message_text (message_value : json) : string :=
  if Py.truthy message_value then format message_value
  else "*No message provided*".

Definition description (location_value message_value : json)
    (encoded_location : string) : string :=
  "**Location**: " +:+ format location_value +:+ nl
    +:+ "**Message**: " +:+ message_text message_value +:+ nl +:+ nl
    +:+ "[View on Google Maps]"
    +:+ "(" +:+ search_url encoded_location +:+ ")".

Definition embed (location_value message_value display_name : json)
    (encoded_location : string) : json :=
  JObj [("title", JStr "üìç Check-In Complete!");
        ("color", JNum 5793266);
        ("description", JStr (description location_value message_value encoded_location));
        ("image", JObj [("url", JStr (map_url encoded_location))]);
        ("footer", JObj [("text", JStr ("Checked in by " +:+ format display_name))])].

Definition image_embed (url : json) : json :=
  JObj [("image", JObj [("url", url)])].

(** [for att in attachments[:4]: embeds.append({"image": {"url": att["url"]}})] *)
Definition attachment_embeds (body : json) : result (list json) :=
  attachments ← Py.get body "attachments" (JArr []);
  first4 ← Py.slice_to 4 attachments;
  atts ← Py.iterate first4;
  rmap_list (fun att => url ← Py.subscript att "url"; mret (image_embed url)) atts.

Definition checkin_message (display_name : json) (embeds : list json) : json :=
  JObj [("type", JNum 4);
        ("data", JObj [("content", JStr (format display_name +:+ " just checked in!"));
                       ("embeds", JArr embeds)])].

Definition instructions : json :=
  JObj [("type", JNum 4);
        ("data",
         JObj [("content",
                JStr ("It looks like you didn't provide a location." +:+ nl +:+ nl
                      +:+ "**Usage:** `/checkin location:<place> [message:<text>]`" +:+ nl
                      +:+ "For example: `/checkin location:" +:+ dq
                      +:+ "Madison Square Garden" +:+ dq +:+ " message:" +:+ dq
                      +:+ "Having a great time!" +:+ dq +:+ "`"));
               ("flags", JNum 64)])].

Definition unauthorized : response :=
  {| statusCode := 401; resp_headers := None; resp_body := "invalid request signature" |}.

Definition pong : response :=
  {| statusCode := 200; resp_headers := None;
     resp_body := json_dumps W (JObj [("type", JNum 1)]) |}.

Definition autocomplete_reply (choices : list json) : response :=
  {| statusCode := 200;
     resp_headers := Some [("Content-Type", "application/json")];
     resp_body := json_dumps W (JObj [("type", JNum 8);
                                      ("data", JObj [("choices", JArr choices)])]) |}.

Definition acknowledgment : response :=
  {| statusCode := 200; resp_headers := None; resp_body := "" |}.

Definition unhandled : response :=
  {| statusCode := 400; resp_headers := None;
     resp_body := json_dumps W (JObj [("error", JStr "Unhandled interaction type")]) |}.

Definition choice (s : json) : json := JObj [("name", s); ("value", s)].

(** Step 3, the auto-complete branch. *)
Definition handle_autocomplete (body : json) : M response :=
  data ← lift (Py.subscript body "data");
  options ← lift (Py.get data "options" (JArr []));
  choices ←
    (if Py.truthy options then
       first ← lift (Py.index0 options);
       partial_text ← lift (Py.get first "value" (JStr ""));
       suggestions ← get_location_suggestions partial_text;
       mret (map choice suggestions)
     else mret []);
  mret (autocomplete_reply choices).

(** The tail of step 4, reached when no location was given. *)
Definition reply_instructions (interaction_id interaction_token : json) : M response :=
  send_interaction_response interaction_id interaction_token instructions;;
  mret acknowledgment.

(** Step 4, the slash-command branch. *)
Definition handle_command (body interaction_id interaction_token : json) : M response :=
  data ← lift (Py.get body "data" (JObj []));
  options ← lift (Py.get data "options" (JArr []));
  if Py.truthy options then
    opts ← lift (Py.iterate options);
    st ← lift (scan_options (JNull, JStr "") opts);
    let location_value := st.1 in
    let message_value := st.2 in
    if Py.truthy location_value then
      display_name ← lift (display_name_of body);
      encoded_location ← lift (quote_value location_value);
      extra ← lift (attachment_embeds body);
      let embeds :=
        embed location_value message_value display_name encoded_location :: extra in
      send_interaction_response interaction_id interaction_token
        (checkin_message display_name embeds);;
      mret acknowledgment
    else reply_instructions interaction_id interaction_token
  else reply_instructions interaction_id interaction_token.

Definition event_body (ev : event) : result string :=
  match ev_body ev with
  | Some s => Ok s
  | None => Raise (KeyError (JStr "body"))
  end.

Definition lambda_handler (ev : event) : M response :=
  verified ← lift (verify_signature ev);
  if negb verified then mret unauthorized
  else
    raw ← lift (event_body ev);
    body ← lift (json_loads W raw);
    interaction_type ← lift (Py.get body "type" JNull);
    interaction_id ← lift (Py.get body "id" JNull);
    interaction_token ← lift (Py.get body "token" JNull);
    if Py.eq_int interaction_type 1 then mret pong
    else if Py.eq_int interaction_type 4 then handle_autocomplete body
    else if Py.eq_int interaction_type 2 then
      handle_command body interaction_id interaction_token
    else mret unhandled.

End Handler.

(** ** A concrete world and concrete requests

    The theorems hold for every [world]; the runs below instantiate them.
    In this world the decoder knows the request bodies listed in [bodies],
    the verifier accepts the one signature [good_signature], and the place
    service answers with [seven_places]. *)
Module Fixture.

Fixpoint join (sep : string) (xs : list string) : string :=
  match xs with
  | [] => ""
  | [x] => x
  | x :: rest => x +:+ sep +:+ join sep rest
  end.

Definition decimal (n : Z) : string :=
  DecimalString.NilZero.string_of_int (Z.to_int n).

(** [json.dumps] with its default separators, for values whose strings
    need no escape beyond the quote, the backslash and the newline. *)
Fixpoint escape (s : string) : string :=
  match s with
  | EmptyString => EmptyString
  | String c rest =>
      (if Ascii.eqb c (ascii_of_nat 34) then "\" +:+ dq
       else if Ascii.eqb c "\" then "\\"
       else if Ascii.eqb c (ascii_of_nat 10) then "\n"
       else String c EmptyString) +:+ escape rest
  end.

Fixpoint dumps (v : json) : string :=
  match v with
  | JNull => "null"
  | JBool b => if b then "true" else "false"
  | JNum n => decimal n
  | JStr s => dq +:+ escape s +:+ dq
  | JArr xs => "[" +:+ join ", " (map dumps xs) +:+ "]"
  | JObj kvs =>
      "{" +:+ join ", " (map (fun kv => dq +:+ escape (fst kv) +:+ dq +:+ ": " +:+ dumps (snd kv)) kvs)
          +:+ "}"
  end.

Definition loads_from (table : list json) (s : string) : result json :=
  match find (fun v => String.eqb (dumps v) s) table with
  | Some v => Ok v
  | None => Raise JSONDecodeError
  end.

Definition str_of (v : json) : string :=
  match v with
  | JNull => "None"
  | JBool b => if b then "True" else "False"
  | JNum n => decimal n
  | _ => dumps v
  end.

Definition good_signature : list Byte.byte := repeat Byte.x01 64.
Definition good_signature_hex : string := String.concat "" (repeat "01" 64).
Definition bad_signature_hex : string := String.concat "" (repeat "02" 64).

Definition bytes_eqb (a b : list Byte.byte) : bool :=
  (length a =? length b)%nat && forallb (fun p => Byte.eqb (fst p) (snd p)) (combine a b).

Definition make_key (hex : string) : result (list Byte.byte) :=
  key ← Hex.fromhex hex;
  if (length key =? 32)%nat then mret key else Raise ValueError.

Definition verify (key message signature : list Byte.byte) : result (list Byte.byte) :=
  if negb (length signature =? 64)%nat then Raise ValueError
  else if bytes_eqb signature good_signature then Ok message
  else Raise BadSignatureError.

Definition place (s : string) : json := JObj [("description", JStr s)].

Definition seven_places : json :=
  JObj [("predictions",
         JArr (map place ["Madison Square Garden"; "Madison, WI"; "Madison Avenue";
                          "Madison Park"; "Madison, AL"; "Madison, NJ"; "Madison, MS"]));
        ("status", JStr "OK")].

Definition option_of (name : string) (value : json) : json :=
  JObj [("name", JStr name); ("type", JNum 3); ("value", value)].

Definition member_of (nick : json) (username : string) : json :=
  JObj [("nick", nick); ("user", JObj [("username", JStr username)])].

Definition attachment (n : Z) : json :=
  JObj [("url", JStr ("https://cdn.example/" +:+ decimal n +:+ ".png"))].

Definition interaction (type : Z) (rest : list (string * json)) : json :=
  JObj ([("type", JNum type); ("id", JStr "1001"); ("token", JStr "tok")] ++ rest)%list.

Definition ping_body : json := interaction 1 [].

Definition autocomplete_body (partial : string) : json :=
  interaction 4 [("data", JObj [("options", JArr [option_of "location" (JStr partial)])])].

Definition autocomplete_no_options : json := interaction 4 [("data", JObj [])].

Definition checkin_body (options : list json) (rest : list (string * json)) : json :=
  interaction 2 (("data", JObj [("options", JArr options)]) :: rest).

Definition garden : json := option_of "location" (JStr "Madison Square Garden").

Definition checkin_plain : json :=
  checkin_body [garden] [("member", member_of JNull "alice")].

Definition checkin_six_photos : json :=
  checkin_body [garden; option_of "message" (JStr "Having a great time!")]
    [("member", member_of (JStr "Ali") "alice");
     ("attachments", JArr (map attachment [1; 2; 3; 4; 5; 6]))].

Definition checkin_no_member : json := checkin_body [garden] [].

Definition checkin_no_username : json :=
  checkin_body [garden] [("member", JObj [("nick", JNull); ("user", JObj [])])].

Definition bodies : list json :=
  [ping_body; autocomplete_body "Mad"; autocomplete_body ""; autocomplete_no_options;
   checkin_plain; checkin_six_photos; checkin_no_member; checkin_no_username;
   seven_places].

Definition world_with (get : result http_response) : world :=
  {| PUBLIC_KEY := String.concat "" (repeat "ab" 32);
     GOOGLE_MAPS_API_KEY := "maps-key";
     VerifyKey := make_key;
     VerifyKey_verify := verify;
     json_loads := loads_from bodies;
     json_dumps := dumps;
     requests_get := fun _ _ => get;
     requests_post := fun _ _ _ => Ok {| status_code := 204; text := "" |};
     py_str := str_of |}.

(** The place service answers. *)
Definition online : world :=
  world_with (Ok {| status_code := 200; text := dumps seven_places |}).

(** The place service cannot be reached. *)
Definition offline : world := world_with (Raise RequestException).

(** The place service answers with something that is not JSON. *)
Definition garbled : world :=
  world_with (Ok {| status_code := 502; text := "<html>Bad Gateway</html>" |}).

Definition request (signature : string) (body : json) : event :=
  {| ev_headers :=
       <["x-signature-ed25519" := signature]>
         (<["x-signature-timestamp" := "1700000000"]> ∅);
     ev_body := Some (dumps body) |}.

Definition signed (body : json) : event := request good_signature_hex body.

Definition bindings (v : json) : list (string * json) :=
  match v with
  | JObj kvs => kvs
  | _ => []
  end.

Definition photo_urls : list json :=
  map (fun n => JStr ("https://cdn.example/" +:+ decimal n +:+ ".png")) [1; 2; 3; 4; 5; 6].

End Fixture.


(** ** Vocabulary of the specification *)

(** [sub] occurs in [s]. *)
Definition contains (s sub : string) : Prop :=
  exists pre post, s = pre +:+ sub +:+ post.

Fixpoint starts_with (s p : string) {struct p} : bool :=
  match p with
  | EmptyString => true
  | String c p' =>
      match s with
      | EmptyString => false
      | String d s' => Ascii.eqb c d && starts_with s' p'
      end
  end.

Fixpoint containsb (s sub : string) : bool :=
  starts_with s sub
  || match s with
     | EmptyString => false
     | String _ rest => containsb rest sub
     end.









(** The embed that shows an image: [{"image": {"url": url}}]. *)
Definition shows_image (e url : json) : Prop :=
  e = JObj [("image", JObj [("url", url)])].

(** A member of a JSON object, if the value is one and has it. *)
Definition field (k : string) (v : json) : option json :=
  match v with
  | JObj kvs => Py.assoc k kvs
  | _ => None
  end.

(** The request passes the signature check and its body decodes to the JSON
    object with the bindings [b]. *)
Definition verified_interaction (W : world) (ev : event) (b : list (string * json)) : Prop :=
  verify_signature W ev = Ok true
  /\ exists raw, ev_body ev = Some raw /\ json_loads W raw = Ok (JObj b).

Definition interaction_type (b : list (string * json)) (n : Z) : Prop :=
  Py.assoc "type" b = Some (JNum n).

(** The JSON object [o] is an option with the given name and value. *)
Definition is_option (o : json) (nv : string * json) : Prop :=
  exists f, o = JObj f /\ Py.assoc "name" f = Some (JStr nv.1)
            /\ Py.assoc "value" f = Some nv.2.

(** [data.options] is the sequence of name/value pairs [nvs]. *)
Definition command_options (b : list (string * json)) (nvs : list (string * json)) : Prop :=
  exists d opts, Py.assoc "data" b = Some (JObj d)
                 /\ Py.assoc "options" d = Some (JArr opts)
                 /\ Forall2 is_option opts nvs.

(** The value supplied for the option [name]: that of the last pair so
    named. *)
Fixpoint supplied (name : string) (nvs : list (string * json)) : option json :=
  match nvs with
  | [] => None
  | nv :: rest =>
      match supplied name rest with
      | Some v => Some v
      | None => if String.eqb nv.1 name then Some nv.2 else None
      end
  end.

(** The invoker's display name: the nickname of [member] when it has one,
    else the user name. *)
Definition invoker_name (b : list (string * json)) (name : json) : Prop :=
  exists m, Py.assoc "member" b = Some (JObj m)
    /\ if Py.truthy (default JNull (Py.assoc "nick" m)) then
         name = default JNull (Py.assoc "nick" m)
       else exists u, Py.assoc "user" m = Some (JObj u)
                      /\ Py.assoc "username" u = Some name.

(** [member] is missing, or has no nickname and no user name. *)
Definition lacks_display_name (b : list (string * json)) : Prop :=
  Py.assoc "member" b = None
  \/ exists m, Py.assoc "member" b = Some (JObj m)
       /\ (Py.assoc "nick" m = None \/ Py.assoc "nick" m = Some JNull)
       /\ (Py.assoc "user" m = None
           \/ exists u, Py.assoc "user" m = Some (JObj u)
                        /\ Py.assoc "username" u = None).

Definition is_attachment (a url : json) : Prop :=
  exists f, a = JObj f /\ Py.assoc "url" f = Some url.

(** The request carries the attachments with the URLs [urls], in order. *)
Definition attachment_urls (b : list (string * json)) (urls : list json) : Prop :=
  match Py.assoc "attachments" b with
  | None => urls = []
  | Some (JArr atts) => Forall2 is_attachment atts urls
  | Some _ => False
  end.

(** What a run of the handler posted to the callback endpoint. *)
Definition posted {A} (m : M A) : option json :=
  match calls m with
  | [RequestsPost _ _ payload] => Some payload
  | _ => None
  end.

Definition posted_embeds {A} (m : M A) : option (list json) :=
  payload ← posted m;
  data ← field "data" payload;
  embeds ← field "embeds" data;
  match embeds with
  | JArr es => Some es
  | _ => None
  end.

Definition embed_description (e : json) : option string :=
  match field "description" e with
  | Some (JStr s) => Some s
  | _ => None
  end.

Definition embed_image (e : json) : option json :=
  image ← field "image" e; field "url" image.

(** The characters a percent-encoded string is written with. *)
Definition url_charb (c : ascii) : bool := Quote.safe c || Ascii.eqb c "%".

(** An auto-complete request without partial text: [data.options] is missing
    or empty, or the first option has no [value] or an empty one. *)
Definition no_partial_text (b : list (string * json)) : Prop :=
  exists d, Py.assoc "data" b = Some (JObj d)
    /\ (Py.assoc "options" d = None
        \/ Py.assoc "options" d = Some (JArr [])
        \/ exists f rest, Py.assoc "options" d = Some (JArr (JObj f :: rest))
             /\ (Py.assoc "value" f = None \/ Py.assoc "value" f = Some (JStr ""))).

(** An auto-complete request whose first option carries the partial text
    [text] (the empty string when the option has no [value]). *)
Definition partial_text (b : list (string * json)) (text : json) : Prop :=
  exists d f rest, Py.assoc "data" b = Some (JObj d)
    /\ Py.assoc "options" d = Some (JArr (JObj f :: rest))
    /\ text = default (JStr "") (Py.assoc "value" f).

(** A choice of an auto-complete reply whose [name] equals its [value]. *)
Definition name_is_value (c : json) : Prop :=
  exists s, c = JObj [("name", s); ("value", s)].

(** The prediction [p] of the place service carries the description [d]. *)
Definition is_prediction (p d : json) : Prop :=
  exists f, p = JObj f /\ Py.assoc "description" f = Some d.

(** The parameters of the auto-complete lookup for [input]. *)
Definition places_params (W : world) (input : json) : list (string * json) :=
  [("key", JStr (GOOGLE_MAPS_API_KEY W)); ("input", input)].

(** C3 as the specification has it: whatever the transport or the service
    does, the lookup returns a list, and it is empty when the transport
    failed. *)
Definition suggestions_never_raise : Prop :=
  forall (W : world) (input : string),
    exists l, outcome (get_location_suggestions W (JStr input)) = Ok l
      /\ (forall e, requests_get W places_url (places_params W (JStr input)) = Raise e ->
                    l = []).

(** A verified command submission with a location option: the request passes
    the signature check, its body is an interaction of type 2 whose options
    are the pairs [nvs], among them the location with the text [loc], which
    is not empty (the handler takes an empty location for none), the invoker
    shows as [name], and the attachments have the URLs [urls]. *)
Record checkin (W : world) (ev : event) (b nvs : list (string * json))
    (loc : string) (name : json) (urls : list json) : Prop := {
  checkin_verified : verified_interaction W ev b;
  checkin_type : interaction_type b 2;
  checkin_options : command_options b nvs;
  checkin_location : supplied "location" nvs = Some (JStr loc);
  checkin_location_given : loc <> "";
  checkin_invoker : invoker_name b name;
  checkin_attachments : attachment_urls b urls
}.

(** The description of the embed posted for a check-in without a message
    contains [text]. *)
Definition placeholder_is (text : string) : Prop :=
  forall W ev b nvs loc name urls,
    checkin W ev b nvs loc name urls ->
    supplied "message" nvs = None ->
    exists main extra desc,
      posted_embeds (lambda_handler W ev) = Some (main :: extra)
      /\ embed_description main = Some desc
      /\ contains desc text.

(** The replies of the handler. *)
Inductive reply_kind : Type := Liveness | Autocomplete | CommandAck | ErrorReply.

Inductive is_reply (W : world) : reply_kind -> response -> Prop :=
| reply_pong : is_reply W Liveness (pong W)
| reply_choices choices : is_reply W Autocomplete (autocomplete_reply W choices)
| reply_ack : is_reply W CommandAck acknowledgment
| reply_401 : is_reply W ErrorReply unauthorized
| reply_400 : is_reply W ErrorReply (unhandled W).

(** C4 as the specification has it: every request gets a reply. *)
Definition always_one_reply : Prop :=
  forall (W : world) (ev : event),
    exists resp kind, outcome (lambda_handler W ev) = Ok resp /\ is_reply W kind resp.

(** ** Logging *)

Definition LOG_LEVELS : gmap string Z :=
  <["DEBUG" := 10]> (<["INFO" := 20]> (<["WARN" := 30]> (<["ERROR" := 40]> ∅))).

Definition DEFAULT_LOG_LEVEL : string := "INFO".

(** [str(n)] for an integer. *)
Definition str_int (n : Z) : string :=
  DecimalString.NilZero.string_of_int (Z.to_int n).

(** The dict a reply is built as, for [json.dumps]. *)
Definition response_dict (r : response) : json :=
  JObj (("statusCode", JNum (statusCode r))
        :: match resp_headers r with
           | Some hs => [("headers", JObj (map (fun kv => (kv.1, JStr kv.2)) hs))]
           | None => []
           end
        ++ [("body", JStr (resp_body r))])%list.

Section Logging.
(** [str.upper], and the value of the environment variable [LOG_LEVEL]. *)
Context (upper : string -> string) (LOG_LEVEL : option string).

Definition CURRENT_LOG_LEVEL : string := upper (default DEFAULT_LOG_LEVEL LOG_LEVEL).

Definition CURRENT_LOG_LEVEL_NUM : Z :=
  default (LOG_LEVELS !!! DEFAULT_LOG_LEVEL) (LOG_LEVELS !! CURRENT_LOG_LEVEL).

(** [log(message, level)]: the lines it prints (every call of the module
    passes the level). *)
Definition log (message level : string) : list string :=
  let level := upper level in
  if CURRENT_LOG_LEVEL_NUM <=? default 0 (LOG_LEVELS !! level)
  then ["[" +:+ level +:+ "] " +:+ message]
  else [].

(** [log_return(response_dict, level)]; the level defaults to ["DEBUG"]. *)
Definition log_return (W : world) (r : response) (level : string) : list string :=
  log ("Completed with " +:+ json_dumps W (response_dict r)) level.

End Logging.

(** ** Secrets *)

Section Secrets.
(** [secrets_client.get_secret_value(SecretId=arn)], seen through the one
    entry the code reads: the secret string, absent for a binary secret. *)
Context (W : world) (get_secret_value : option string -> result (option string)).

(** [json.loads(response["SecretString"])] *)
Definition load_secret (arn : option string) : result json :=
  response ← get_secret_value arn;
  match response with
  | Some s => json_loads W s
  | None => Raise (KeyError (JStr "SecretString"))
  end.

Definition get_discord_secrets (discord_secret_arn : option string)
  : result (json * json * json) :=
  secret ← load_secret discord_secret_arn;
  token ← Py.get secret "token" JNull;
  appId ← Py.get secret "appId" JNull;
  publicKey ← Py.get secret "publicKey" JNull;
  mret (token, appId, publicKey).

Definition get_google_secrets (google_secret_arn : option string) : result json :=
  secret ← load_secret google_secret_arn;
  Py.get secret "GOOGLE_MAPS_API_KEY" JNull.

End Secrets.

(** ** The registration script, [register_commands.py] *)

(** What the script does, in order: lines printed and requests made. *)
Inductive effect : Type :=
| Printed (line : string)
| Requested (c : call).

Definition command_data : json :=
  JObj [("name", JStr "checkin");
        ("description",
         JStr "Check in to a location, with optional custom message and photos!");
        ("options",
         JArr [JObj [("name", JStr "location");
                     ("description", JStr "Where are you?");
                     ("type", JNum 3);
                     ("autocomplete", JBool true);
                     ("required", JBool false)];
               JObj [("name", JStr "message");
                     ("description", JStr "Add a custom message");
                     ("type", JNum 3);
                     ("required", JBool false)];
               JObj [("name", JStr "photo");
                     ("description", JStr "Attach an image");
                     ("type", JNum 11);
                     ("required", JBool false)]])].

Definition commands_url (app_id : string) : string :=
  "https://discord.com/api/v10/applications/" +:+ app_id +:+ "/commands".

Definition registration_headers (bot_token : string) : list (string * string) :=
  [("Authorization", "Bot " +:+ bot_token); ("Content-Type", "application/json")].

Definition registered_line : string :=
  "✅ Successfully registered (or updated) the /checkin command!".

Definition failed_line (status : Z) : string :=
  "❌ Failed to register the command. Status: " +:+ str_int status.

Definition missing_line : string :=
  "❌ Missing DISCORD_BOT_TOKEN or DISCORD_APP_ID environment variables.".

Definition register_checkin_slash_command (W : world) (bot_token app_id : string)
  : list effect * result unit :=
  let url := commands_url app_id in
  let headers := registration_headers bot_token in
  let request := Requested (RequestsPost url headers command_data) in
  match requests_post W url headers command_data with
  | Raise e => ([request], Raise e)
  | Ok response =>
      if (status_code response =? 200) || (status_code response =? 201) then
        ([request;
          Printed registered_line],
         Ok ())
      else
        ([request;
          Printed (failed_line (status_code response));
          Printed ("Response: " +:+ text response)],
         Ok ())
  end.

(** [not v] for the value of an environment variable. *)
Definition unset (v : option string) : bool :=
  match v with
  | None => true
  | Some s => String.eqb s ""
  end.

(** The body of [if __name__ == "__main__":], given the two environment
    variables as they are once [load_dotenv()] has run. *)
Definition register_main (W : world) (DISCORD_BOT_TOKEN DISCORD_APP_ID : option string)
  : list effect * result unit :=
  if unset DISCORD_BOT_TOKEN || unset DISCORD_APP_ID then
    ([Printed missing_line], Ok ())
  else
    register_checkin_slash_command W (default "" DISCORD_BOT_TOKEN)
                                   (default "" DISCORD_APP_ID).

(** ** Vocabulary of the further properties *)

(** PyNaCl accepts the signature header, decoded from hexadecimal, as a
    signature of the time stamp followed by the body, under the configured
    public key; a header that is absent counts as the empty string. *)
Definition accepted (W : world) (ev : event) : Prop :=
  exists key sig out,
    VerifyKey W (PUBLIC_KEY W) = Ok key
    /\ Hex.fromhex (default "" (ev_headers ev !! "x-signature-ed25519")) = Ok sig
    /\ VerifyKey_verify W key
         (list_byte_of_string (default "" (ev_headers ev !! "x-signature-timestamp")
                               +:+ default "" (ev_body ev)))
         sig
       = Ok out.

(** The outbound calls of one invocation: none, one lookup of places, or one
    post to the callback of an interaction. *)
Inductive one_call_at_most (W : world) : list call -> Prop :=
| no_call : one_call_at_most W []
| one_lookup input :
    one_call_at_most W [RequestsGet places_url (places_params W input)]
| one_callback id token payload :
    one_call_at_most W [RequestsPost (callback_url W id token)
                                     [("Content-Type", "application/json")] payload].

(** A command submission without a location: no [data], no options, or
    options among which no location is supplied, or one that is empty (a
    value Python takes for false). *)
Definition no_location (b : list (string * json)) : Prop :=
  Py.assoc "data" b = None
  \/ exists d, Py.assoc "data" b = Some (JObj d)
       /\ (Py.assoc "options" d = None
           \/ Py.assoc "options" d = Some (JArr [])
           \/ exists opts nvs,
                Py.assoc "options" d = Some (JArr opts)
                /\ Forall2 is_option opts nvs
                /\ match supplied "location" nvs with
                   | None => True
                   | Some v => Py.truthy v = false
                   end).

(** The text of the message a run posted, and the footer of an embed. *)
Definition posted_content {A} (m : M A) : option json :=
  payload ← posted m; data ← field "data" payload; field "content" data.

Definition embed_footer (e : json) : option json :=
  footer ← field "footer" e; field "text" footer.

(** A type field that is none of ping, command and auto-complete. *)
Definition other_type (type : option json) : Prop :=
  match type with
  | Some (JNum n) => n <> 1 /\ n <> 2 /\ n <> 4
  | Some (JBool b) => b = false
  | _ => True
  end.

(** ** More concrete requests *)
Module Scenario.

Definition alice : string * json := ("member", Fixture.member_of JNull "alice").

Definition command_no_data : json := Fixture.interaction 2 [alice].

Definition command_no_options : json :=
  Fixture.interaction 2 [("data", JObj []); alice].

Definition message_only : json :=
  Fixture.checkin_body [Fixture.option_of "message" (JStr "hello")] [alice].

Definition empty_location : json :=
  Fixture.checkin_body [Fixture.option_of "location" (JStr "")] [alice].

Definition empty_nick : json :=
  Fixture.checkin_body [Fixture.garden] [("member", Fixture.member_of (JStr "") "alice")].

Definition empty_message : json :=
  Fixture.checkin_body [Fixture.garden; Fixture.option_of "message" (JStr "")] [alice].

Definition slashes : json :=
  Fixture.checkin_body [Fixture.option_of "location" (JStr "a&key=x)#")] [alice].

Definition bad_fifth_photo : json :=
  Fixture.checkin_body [Fixture.garden]
    [alice;
     ("attachments",
      JArr (map Fixture.attachment [1; 2; 3; 4] ++ [JObj [("id", JStr "5")]; JNull]))].

Definition bad_second_photo : json :=
  Fixture.checkin_body [Fixture.garden]
    [alice; ("attachments", JArr [Fixture.attachment 1; JObj [("id", JStr "2")]])].

Definition autocomplete_no_data : json := Fixture.interaction 4 [].

Definition string_type : json :=
  JObj [("type", JStr "2"); ("id", JStr "1001"); ("token", JStr "tok")].

Definition no_type : json := JObj [("id", JStr "1001"); ("token", JStr "tok")].

Definition array_body : json := JArr [JNum 1].

(** An answer of the place service whose second prediction has no
    description. *)
Definition broken_places : json :=
  JObj [("predictions",
         JArr [Fixture.place "Madison Square Garden"; JObj [("place_id", JStr "x")]])].

Definition bodies : list json :=
  [command_no_data; command_no_options; message_only; empty_location; empty_nick;
   empty_message; slashes; bad_fifth_photo; bad_second_photo; autocomplete_no_data;
   string_type; no_type; array_body; Fixture.checkin_six_photos; Fixture.seven_places;
   broken_places].

(** A world that decodes [bodies], with the given answers of the place
    service and of the callback endpoint. *)
Definition world_of (get post : result http_response) : world :=
  {| PUBLIC_KEY := String.concat "" (repeat "ab" 32);
     GOOGLE_MAPS_API_KEY := "maps-key";
     VerifyKey := Fixture.make_key;
     VerifyKey_verify := Fixture.verify;
     json_loads := Fixture.loads_from bodies;
     json_dumps := Fixture.dumps;
     requests_get := fun _ _ => get;
     requests_post := fun _ _ _ => post;
     py_str := Fixture.str_of |}.

Definition answer (status : Z) (body : string) : result http_response :=
  Ok {| status_code := status; text := body |}.

(** Both services answer. *)
Definition up : world :=
  world_of (answer 200 (Fixture.dumps Fixture.seven_places)) (answer 204 "").

(** The callback endpoint cannot be reached. *)
Definition callback_down : world :=
  world_of (answer 200 (Fixture.dumps Fixture.seven_places)) (Raise RequestException).

(** The callback endpoint refuses the message. *)
Definition callback_refuses : world :=
  world_of (answer 200 (Fixture.dumps Fixture.seven_places))
           (answer 400 "{}").

(** [str.upper] on ASCII letters. *)
Definition upper_char (c : ascii) : ascii :=
  let n := N_of_ascii c in
  if (97 <=? n)%N && (n <=? 122)%N then ascii_of_N (n - 32) else c.

Fixpoint upper (s : string) : string :=
  match s with
  | EmptyString => EmptyString
  | String c rest => String (upper_char c) (upper rest)
  end.

End Scenario.

(** * Properties *)

(** ** The monad *)

Lemma bind_lift_ok {A B} (a : A) (f : A -> M B) : lift (Ok a) ≫= f = f a.
Proof. unfold mbind, M_bind, lift. destruct (f a); reflexivity. Qed.

Lemma bind_lift_raise {A B} (e : exn) (f : A -> M B) :
  lift (Raise e) ≫= f = ([], Raise e).
Proof. reflexivity. Qed.

Lemma bind_ret {A B} (a : A) (f : A -> M B) : mret a ≫= f = f a.
Proof. apply bind_lift_ok. Qed.

Lemma bind_perform {A B} (c : call) (r : result A) (f : A -> M B) :
  calls (perform c r ≫= f) = c :: match r with Ok a => calls (f a) | Raise _ => [] end.
Proof.
  unfold mbind, M_bind, perform, calls. destruct r as [a|e]; [|reflexivity].
  destruct (f a); reflexivity.
Qed.

(** A bind that ends with a value ran both of its halves to a value. *)
Lemma bind_ok_inv {A B} (m : M A) (f : A -> M B) tr (b : B) :
  m ≫= f = (tr, Ok b) ->
  exists tr1 a tr2, m = (tr1, Ok a) /\ f a = (tr2, Ok b) /\ tr = (tr1 ++ tr2)%list.
Proof.
  unfold mbind, M_bind. destruct m as [tr1 [a|e]]; [|discriminate].
  destruct (f a) as [tr2 r] eqn:Hf. intros [= <- ->].
  exists tr1, a, tr2. auto.
Qed.

Lemma ret_ok_inv {A} (a b : A) tr : (mret a : M A) = (tr, Ok b) -> a = b /\ tr = [].
Proof. intros [= <- ->]. auto. Qed.

Lemma bind_ok {A B} tr (a : A) (f : A -> M B) :
  (tr, Ok a) ≫= f = ((tr ++ calls (f a))%list, outcome (f a)).
Proof. unfold mbind, M_bind, calls, outcome. destruct (f a); reflexivity. Qed.

Ltac run :=
  repeat first
    [ rewrite bind_lift_ok
    | rewrite bind_lift_raise
    | rewrite bind_ret
    | progress cbn [rbind mbind result_bind mret result_ret negb
                    default from_option id Z.eqb Pos.eqb
                    Py.get Py.subscript Py.eq_int Py.eq_str
                    Py.iterate Py.slice_to Py.index0 fst snd] ].

(** ** Strings *)

Lemma append_cons (x : ascii) (a b : string) :
  String x a +:+ b = String x (a +:+ b).
Proof. reflexivity. Qed.

Lemma append_assoc (a b c : string) : (a +:+ b) +:+ c = a +:+ b +:+ c.
Proof.
  induction a as [|x a IH]; [reflexivity|].
  now rewrite !append_cons, IH.
Qed.

Lemma append_nil_r (a : string) : a +:+ "" = a.
Proof.
  induction a as [|x a IH]; [reflexivity|].
  now rewrite append_cons, IH.
Qed.

Lemma contains_head (sub post : string) : contains (sub +:+ post) sub.
Proof. exists "", post. reflexivity. Qed.

Lemma contains_skip (s t sub : string) : contains t sub -> contains (s +:+ t) sub.
Proof.
  intros (pre & post & ->). exists (s +:+ pre), post. now rewrite append_assoc.
Qed.

Lemma contains_refl (s : string) : contains s s.
Proof. exists "", "". now rewrite append_nil_r. Qed.

Lemma contains_head3 (a b c post : string) :
  contains (a +:+ b +:+ c +:+ post) (a +:+ b +:+ c).
Proof. exists "", post. now rewrite !append_assoc. Qed.

Ltac find_substring :=
  first [ apply contains_head | apply contains_head3 | apply contains_refl
        | apply contains_skip; find_substring ].

Lemma starts_with_app (s p : string) :
  starts_with s p = true <-> exists post, s = p +:+ post.
Proof.
  revert s. induction p as [|c p IH]; intros s; cbn [starts_with].
  - split; [exists s; reflexivity | reflexivity].
  - destruct s as [|d s].
    + split; [discriminate | intros [post [=]]].
    + rewrite andb_true_iff, Ascii.eqb_eq, IH. split.
      * intros [-> [post ->]]. exists post. reflexivity.
      * intros [post Hp]. rewrite append_cons in Hp.
        injection Hp as -> ->. eauto.
Qed.

Lemma containsb_spec (s sub : string) : containsb s sub = true <-> contains s sub.
Proof.
  induction s as [|c s IH]; cbn [containsb].
  - rewrite orb_false_r, starts_with_app. split.
    + intros [post ->]. apply contains_head.
    + intros ([|x pre] & post & H); [eauto | discriminate].
  - rewrite orb_true_iff, starts_with_app, IH. split.
    + intros [[post ->] | (pre & post & ->)].
      * apply contains_head.
      * exists (String c pre), post. reflexivity.
    + intros ([|x pre] & post & H).
      * left. eauto.
      * right. rewrite append_cons in H. injection H as -> ->.
        exists pre, post. reflexivity.
Qed.

Lemma list_ascii_of_append (a b : string) :
  list_ascii_of_string (a +:+ b) = (list_ascii_of_string a ++ list_ascii_of_string b)%list.
Proof.
  induction a as [|x a IH]; [reflexivity|].
  rewrite append_cons. cbn [list_ascii_of_string]. now rewrite IH.
Qed.

(** ** [urllib.parse.quote] *)

Lemma quote_byte_alphabet (c : ascii) :
  forallb url_charb (list_ascii_of_string (Quote.quote_byte c)) = true.
Proof. destruct c as [[] [] [] [] [] [] [] []]; reflexivity. Qed.


Lemma quote_alphabet (s : string) :
  Forall (fun c => Quote.safe c = true \/ c = "%"%char)
         (list_ascii_of_string (Quote.quote s)).
Proof.
  induction s as [|c s IH]; cbn [Quote.quote].
  - constructor.
  - rewrite list_ascii_of_append. apply Forall_app. split; [|exact IH].
    pose proof (quote_byte_alphabet c) as H.
    rewrite forallb_forall in H. apply List.Forall_forall. intros x Hx.
    specialize (H x Hx). unfold url_charb in H.
    apply orb_true_iff in H as [H|H]; [now left | right].
    symmetry. now apply Ascii.eqb_eq.
Qed.









Lemma image_embeds_shown (urls : list json) :
  Forall2 shows_image (map image_embed urls) urls
  /\ map embed_image (map image_embed urls) = map Some urls.
Proof.
  split.
  - induction urls; constructor; [reflexivity | assumption].
  - induction urls as [|u urls IH]; [reflexivity|]. cbn [map]. now rewrite IH.
Qed.


(** ** The pieces of the handler *)

Section Pieces.
Context (W : world).

Lemma scan_option_is_option st o nv :
  is_option o nv ->
  scan_option st o =
    Ok (if String.eqb nv.1 "location" then (nv.2, st.2)
        else if String.eqb nv.1 "message" then (st.1, nv.2)
        else st).
Proof.
  intros (f & -> & Hn & Hv). unfold scan_option, Py.subscript, Py.eq_str.
  rewrite Hn. cbn [mbind result_bind rbind].
  destruct (String.eqb nv.1 "location"); [now rewrite Hv|].
  destruct (String.eqb nv.1 "message"); [now rewrite Hv|].
  reflexivity.
Qed.

(** The loop over the options leaves in [location_value] and
    [message_value] the values supplied for the two options, or the
    initial values. *)
Lemma scan_options_supplied opts nvs st :
  Forall2 is_option opts nvs ->
  scan_options st opts =
    Ok (default st.1 (supplied "location" nvs),
        default st.2 (supplied "message" nvs)).
Proof.
  intros H. revert st.
  induction H as [|o nv opts nvs Ho _ IH]; intros st.
  - destruct st; reflexivity.
  - cbn [scan_options]. rewrite (scan_option_is_option st o nv Ho).
    cbn [mbind result_bind rbind]. rewrite IH. cbn [supplied].
    destruct (String.eqb nv.1 "location") eqn:E1;
      destruct (String.eqb nv.1 "message") eqn:E2;
      destruct (supplied "location" nvs), (supplied "message" nvs);
      try reflexivity;
      apply String.eqb_eq in E1; apply String.eqb_eq in E2; congruence.
Qed.

Lemma display_name_resolves b name :
  invoker_name b name -> display_name_of (JObj b) = Ok name.
Proof.
  intros (m & Hm & H). unfold display_name_of, Py.subscript, Py.get.
  rewrite Hm. cbn [mbind result_bind rbind mret result_ret].
  destruct (Py.truthy (default JNull (Py.assoc "nick" m))).
  - now subst.
  - destruct H as (u & Hu & Hn). rewrite Hu.
    cbn [mbind result_bind rbind]. now rewrite Hn.
Qed.

Lemma display_name_missing b :
  lacks_display_name b -> exists k, display_name_of (JObj b) = Raise (KeyError k).
Proof.
  unfold display_name_of, Py.subscript, Py.get.
  intros [Hm | (m & Hm & Hnick & Huser)]; rewrite Hm;
    cbn [mbind result_bind rbind mret result_ret]; [eauto|].
  assert (Py.truthy (default JNull (Py.assoc "nick" m)) = false) as ->
    by (destruct Hnick as [-> | ->]; reflexivity).
  destruct Huser as [-> | (u & -> & Hn)]; cbn [mbind result_bind rbind];
    [|rewrite Hn]; eauto.
Qed.

Lemma attachments_embedded atts urls :
  Forall2 is_attachment atts urls ->
  rmap_list (fun att => url ← Py.subscript att "url"; mret (image_embed url)) atts
  = Ok (map image_embed urls).
Proof.
  induction 1 as [|a u atts urls (f & -> & Hu) _ IH]; [reflexivity|].
  cbn [rmap_list map Py.subscript]. rewrite Hu.
  cbn [mbind result_bind rbind mret result_ret]. now rewrite IH.
Qed.

Lemma attachment_embeds_urls b urls :
  attachment_urls b urls ->
  attachment_embeds (JObj b) = Ok (map image_embed (firstn 4 urls)).
Proof.
  unfold attachment_urls, attachment_embeds, Py.get.
  destruct (Py.assoc "attachments" b) as [[| | | |atts|]|]; try contradiction.
  - intros H. run. apply attachments_embedded. now apply Forall2_take.
  - intros ->. reflexivity.
Qed.

(** Past the signature check and the decoding of the body, the handler
    branches on the interaction type. *)
Lemma handler_verified ev b :
  verified_interaction W ev b ->
  lambda_handler W ev =
    let type := default JNull (Py.assoc "type" b) in
    if Py.eq_int type 1 then mret (pong W)
    else if Py.eq_int type 4 then handle_autocomplete W (JObj b)
    else if Py.eq_int type 2 then
      handle_command W (JObj b) (default JNull (Py.assoc "id" b))
                     (default JNull (Py.assoc "token" b))
    else mret (unhandled W).
Proof.
  intros (Hv & raw & Hraw & Hb). unfold lambda_handler, event_body.
  rewrite Hv, Hraw. run. rewrite Hb. run. reflexivity.
Qed.

Lemma handler_rejects ev :
  verify_signature W ev = Ok false -> lambda_handler W ev = ([], Ok unauthorized).
Proof. intros Hv. unfold lambda_handler. rewrite Hv. run. reflexivity. Qed.

Lemma send_calls id token message :
  calls (send_interaction_response W id token message ;; mret acknowledgment)
  = [RequestsPost (callback_url W id token)
                  [("Content-Type", "application/json")] message].
Proof.
  unfold send_interaction_response, calls, perform, mbind, M_bind.
  destruct (requests_post W _ _ _); reflexivity.
Qed.

(** A command whose options carry a location text, from an invoker with a
    display name: the handler posts the check-in message and acknowledges. *)
Lemma checkin_run ev b nvs loc name urls :
  verified_interaction W ev b -> interaction_type b 2 ->
  command_options b nvs ->
  supplied "location" nvs = Some (JStr loc) -> loc <> "" ->
  invoker_name b name -> attachment_urls b urls ->
  lambda_handler W ev =
    (send_interaction_response W
       (default JNull (Py.assoc "id" b)) (default JNull (Py.assoc "token" b))
       (checkin_message W name
          (embed W (JStr loc) (default (JStr "") (supplied "message" nvs)) name
                 (Quote.quote loc)
           :: map image_embed (firstn 4 urls))) ;;
     mret acknowledgment).
Proof.
  intros Hv Ht (d & opts & Hd & Ho & Hopts) Hloc Hne Hname Hatt.
  rewrite (handler_verified ev b Hv). unfold interaction_type in Ht.
  rewrite Ht. run. unfold handle_command. run. rewrite Hd. run.
  rewrite Ho. run.
  assert (Py.truthy (JArr opts) = true) as ->.
  { destruct Hopts; [discriminate Hloc | reflexivity]. }
  run. rewrite (scan_options_supplied opts nvs _ Hopts). run.
  rewrite Hloc. run.
  assert (Py.truthy (JStr loc) = true) as ->.
  { cbn. destruct loc; [contradiction | reflexivity]. }
  rewrite (display_name_resolves b name Hname). run.
  cbn [quote_value]. run.
  rewrite (attachment_embeds_urls b urls Hatt). run. reflexivity.
Qed.

End Pieces.

(** ** The suggestion client *)

Section Suggestions.
Context (W : world).

Lemma rmap_list_length {A B} (f : A -> result B) xs ys :
  rmap_list f xs = Ok ys -> length ys = length xs.
Proof.
  revert ys. induction xs as [|x xs IH]; intros ys; cbn [rmap_list].
  - now intros [= <-].
  - destruct (f x); [|discriminate]. cbn [rbind].
    destruct (rmap_list f xs) as [zs|]; [|discriminate]. cbn [rbind].
    intros [= <-]. cbn. now rewrite (IH zs).
Qed.

Lemma rmap_list_descriptions ps ds :
  Forall2 is_prediction ps ds ->
  rmap_list (fun p => Py.subscript p "description") ps = Ok ds.
Proof.
  induction 1 as [|p d ps ds (f & -> & Hd) _ IH]; [reflexivity|].
  cbn [rmap_list Py.subscript]. rewrite Hd. cbn [rbind]. now rewrite IH.
Qed.

(** The characters of a string have no [description]. *)
Lemma rmap_list_of_chars cs l :
  rmap_list (fun p => Py.subscript p "description") (map JStr cs) = Ok l -> l = [].
Proof. destruct cs; [now intros [= <-] | discriminate]. Qed.

Lemma suggestions_empty_input input :
  Py.truthy input = false -> get_location_suggestions W input = ([], Ok []).
Proof. intros H. unfold get_location_suggestions. now rewrite H. Qed.

(** With an input, the lookup is one GET, whatever follows. *)
Lemma suggestions_calls input :
  Py.truthy input = true ->
  calls (get_location_suggestions W input)
  = [RequestsGet places_url (places_params W input)].
Proof.
  intros H. unfold get_location_suggestions. rewrite H. cbn [negb].
  rewrite bind_perform. f_equal.
  destruct (requests_get W _ _) as [r|]; [|reflexivity].
  destruct (json_loads W (text r)) as [data|]; [|reflexivity]. run.
  destruct (Py.get data _ _) as [predictions|]; [|reflexivity]. run.
  destruct (Py.slice_to 5 predictions) as [first5|]; [|reflexivity]. run.
  destruct (Py.iterate first5); reflexivity.
Qed.

Lemma suggestions_outcome input :
  Py.truthy input = true ->
  outcome (get_location_suggestions W input)
  = (response ← requests_get W places_url (places_params W input);
     data ← json_loads W (text response);
     predictions ← Py.get data "predictions" (JArr []);
     first5 ← Py.slice_to 5 predictions;
     ps ← Py.iterate first5;
     rmap_list (fun p => Py.subscript p "description") ps).
Proof.
  intros H. unfold get_location_suggestions, places_params. rewrite H. cbn [negb].
  destruct (requests_get W _ _) as [r|]; [|reflexivity].
  unfold perform, outcome. cbn [mbind M_bind result_bind rbind].
  destruct (json_loads W (text r)) as [data|]; [|reflexivity]. run.
  destruct (Py.get data _ _) as [predictions|]; [|reflexivity]. run.
  destruct (Py.slice_to 5 predictions) as [first5|]; [|reflexivity]. run.
  destruct (Py.iterate first5); reflexivity.
Qed.

Lemma suggestions_at_most_5 input tr l :
  get_location_suggestions W input = (tr, Ok l) -> (length l <= 5)%nat.
Proof.
  intros H. destruct (Py.truthy input) eqn:Ht.
  - apply (f_equal outcome) in H. rewrite (suggestions_outcome input Ht) in H.
    cbn [outcome snd] in H.
    destruct (requests_get W _ _) as [r|]; [|discriminate].
    cbn [mbind result_bind rbind] in H.
    destruct (json_loads W (text r)) as [data|]; [|discriminate].
    cbn [mbind result_bind rbind] in H.
    destruct (Py.get data _ _) as [predictions|]; [|discriminate].
    cbn [mbind result_bind rbind] in H.
    destruct predictions as [| | |s|xs|]; try discriminate;
      cbn [Py.slice_to Py.iterate mbind result_bind rbind] in H.
    + apply rmap_list_of_chars in H as ->. cbn. lia.
    + apply rmap_list_length in H. rewrite H. apply List.firstn_le_length.
  - rewrite (suggestions_empty_input input Ht) in H. injection H as <- <-.
    cbn. lia.
Qed.

End Suggestions.

(** C3 fails on the code: when the place service cannot be reached, the
    exception of [requests.get] leaves [get_location_suggestions]; no empty
    list is returned. *)
Lemma suggestions_raise_when_offline :
  get_location_suggestions Fixture.offline (JStr "Mad")
  = ([RequestsGet places_url (places_params Fixture.offline (JStr "Mad"))],
     Raise RequestException)
  /\ outcome (get_location_suggestions Fixture.garbled (JStr "Mad")) = Raise JSONDecodeError
  /\ ~ suggestions_never_raise.
Proof.
  split; [reflexivity|]. split; [reflexivity|].
  intros H. destruct (H Fixture.offline "Mad") as (l & Hl & _). discriminate Hl.
Qed.

(** C3, amended.  For the empty input the lookup returns the empty list
    without a call.  For any other input it makes exactly one GET; when the
    GET answers and the body decodes to a JSON object, the result is the
    list of the descriptions of the first five predictions at most, and the
    empty list when the object has no [predictions] (the shape of the
    service's error bodies); when the transport raises, or the body does not
    decode, that exception is not caught and reaches the caller. *)
Theorem suggestions_by_design (W : world) (input : string) :
  let lookup := get_location_suggestions W (JStr input) in
  let got := requests_get W places_url (places_params W (JStr input)) in
  (input = "" -> lookup = ([], Ok []))
  /\ (input <> "" ->
      calls lookup = [RequestsGet places_url (places_params W (JStr input))]
      /\ (forall e, got = Raise e -> outcome lookup = Raise e)
      /\ (forall r e, got = Ok r -> json_loads W (text r) = Raise e ->
                      outcome lookup = Raise e)
      /\ (forall r d, got = Ok r -> json_loads W (text r) = Ok (JObj d) ->
                      Py.assoc "predictions" d = None -> outcome lookup = Ok [])
      /\ (forall r d ps ds,
            got = Ok r -> json_loads W (text r) = Ok (JObj d) ->
            Py.assoc "predictions" d = Some (JArr ps) ->
            Forall2 is_prediction (firstn 5 ps) ds ->
            outcome lookup = Ok ds /\ (length ds <= 5)%nat)).
Proof.
  cbv zeta. split.
  - intros ->. now apply suggestions_empty_input.
  - intros Hne.
    assert (Py.truthy (JStr input) = true) as Ht
      by (destruct input; [contradiction | reflexivity]).
    rewrite (suggestions_outcome W _ Ht). split; [now apply suggestions_calls|].
    split; [|split; [|split]].
    + intros e ->. reflexivity.
    + intros r e -> He. cbn [mbind result_bind rbind]. now rewrite He.
    + intros r d -> Hd Hp. cbn [mbind result_bind rbind]. rewrite Hd.
      cbn [mbind result_bind rbind Py.get]. now rewrite Hp.
    + intros r d ps ds -> Hd Hp Hds. cbn [mbind result_bind rbind]. rewrite Hd.
      cbn [mbind result_bind rbind Py.get]. rewrite Hp. run.
      rewrite (rmap_list_descriptions _ _ Hds). split; [reflexivity|].
      rewrite <- (Forall2_length _ _ _ Hds). apply List.firstn_le_length.
Qed.

Lemma suggestions_by_design_witness :
  outcome (get_location_suggestions Fixture.online (JStr "Mad"))
  = Ok (map JStr ["Madison Square Garden"; "Madison, WI"; "Madison Avenue";
                  "Madison Park"; "Madison, AL"])
  /\ outcome (get_location_suggestions Fixture.offline (JStr "Mad"))
     = Raise RequestException.
Proof.
  split.
  - refine (proj1 (proj2 (proj2 (proj2 (proj2
              (proj2 (suggestions_by_design Fixture.online "Mad")
                     ltac:(discriminate)))))
              {| status_code := 200; text := Fixture.dumps Fixture.seven_places |}
              _ _ _ eq_refl eq_refl eq_refl _)).
    repeat constructor; eexists; split; reflexivity.
  - apply (proj2 (suggestions_by_design Fixture.offline "Mad")); [discriminate|].
    reflexivity.
Defined.

(** ** Signature check *)

(** C2: when [verify_signature] returns false, [lambda_handler] answers with
    status code 401 and makes no outbound call, neither to the suggestion
    endpoint nor to the callback endpoint. *)
Theorem unverified_request_gets_401 (W : world) (ev : event) :
  verify_signature W ev = Ok false ->
  calls (lambda_handler W ev) = []
  /\ exists resp, outcome (lambda_handler W ev) = Ok resp /\ statusCode resp = 401.
Proof.
  intros Hv. rewrite (handler_rejects W ev Hv). split; [reflexivity|].
  exists unauthorized. split; reflexivity.
Qed.

Lemma unverified_request_gets_401_witness :
  let ev := Fixture.request Fixture.bad_signature_hex Fixture.ping_body in
  verify_signature Fixture.online ev = Ok false
  /\ calls (lambda_handler Fixture.online ev) = []
  /\ exists resp, outcome (lambda_handler Fixture.online ev) = Ok resp
                  /\ statusCode resp = 401.
Proof.
  split; [vm_compute; reflexivity|].
  apply unverified_request_gets_401. vm_compute. reflexivity.
Defined.

(** C1, where the code departs from the claim: a signature header that is
    not well-formed hexadecimal makes [bytes.fromhex] raise [ValueError]
    inside the [try]; the handler of [BadSignatureError] does not catch it,
    so it leaves [verify_signature], and [lambda_handler] with it, instead
    of the result [False]. *)
Theorem malformed_signature_escapes (W : world) (ev : event) (sig : string)
    (key : list Byte.byte) :
  ev_headers ev !! "x-signature-ed25519" = Some sig ->
  Hex.fromhex sig = Raise ValueError ->
  VerifyKey W (PUBLIC_KEY W) = Ok key ->
  verify_signature W ev = Raise ValueError
  /\ lambda_handler W ev = ([], Raise ValueError).
Proof.
  intros Hsig Hhex Hkey.
  assert (verify_signature W ev = Raise ValueError) as Hv.
  { unfold verify_signature. rewrite Hsig, Hkey. run. rewrite Hhex. reflexivity. }
  split; [exact Hv|]. unfold lambda_handler. rewrite Hv. reflexivity.
Qed.

Lemma malformed_signature_escapes_witness :
  let ev := Fixture.request "zz" Fixture.ping_body in
  verify_signature Fixture.online ev = Raise ValueError
  /\ lambda_handler Fixture.online ev = ([], Raise ValueError).
Proof.
  apply (malformed_signature_escapes Fixture.online _ "zz"
           (repeat Byte.xab 32)); vm_compute; reflexivity.
Defined.

(** ** Auto-complete *)

Lemma choices_name_is_value (suggestions : list json) :
  Forall name_is_value (map choice suggestions).
Proof.
  induction suggestions as [|s l IH]; constructor; [|exact IH].
  exists s. reflexivity.
Qed.

(** C6: for a verified auto-complete request without partial text (the
    options are missing or empty, or the first option has no value or the
    empty string) the reply carries the empty choice list, and the run makes
    no outbound call at all. *)
Theorem autocomplete_without_text (W : world) (ev : event)
    (b : list (string * json)) :
  verified_interaction W ev b -> interaction_type b 4 -> no_partial_text b ->
  lambda_handler W ev = ([], Ok (autocomplete_reply W [])).
Proof.
  intros Hv Ht (d & Hd & Hopt). rewrite (handler_verified W ev b Hv).
  unfold interaction_type in Ht. rewrite Ht. run.
  unfold handle_autocomplete. run. rewrite Hd. run.
  destruct Hopt as [-> | [-> | (f & rest & -> & Hval)]]; run;
    cbn [Py.truthy]; run; try reflexivity.
  rewrite (suggestions_empty_input W);
    [run; reflexivity | destruct Hval as [-> | ->]; reflexivity].
Qed.

Lemma autocomplete_without_text_witness :
  lambda_handler Fixture.online (Fixture.signed (Fixture.autocomplete_body ""))
  = ([], Ok (autocomplete_reply Fixture.online []))
  /\ lambda_handler Fixture.online (Fixture.signed Fixture.autocomplete_no_options)
     = ([], Ok (autocomplete_reply Fixture.online [])).
Proof.
  split.
  - eapply autocomplete_without_text.
    + split; [vm_compute; reflexivity|]. eexists. split; reflexivity.
    + reflexivity.
    + eexists. split; [reflexivity|]. right. right.
      do 2 eexists. split; [reflexivity|]. right. reflexivity.
  - eapply autocomplete_without_text.
    + split; [vm_compute; reflexivity|]. eexists. split; reflexivity.
    + reflexivity.
    + eexists. split; [reflexivity|]. left. reflexivity.
Defined.

Lemma autocomplete_reply_shape (W : world) (body : json) tr resp :
  handle_autocomplete W body = (tr, Ok resp) ->
  exists choices,
    resp = autocomplete_reply W choices
    /\ (length choices <= 5)%nat
    /\ Forall name_is_value choices.
Proof.
  unfold handle_autocomplete. intros H.
  apply bind_ok_inv in H as (? & data & ? & _ & H & _).
  apply bind_ok_inv in H as (? & options & ? & _ & H & _).
  apply bind_ok_inv in H as (? & choices & ? & Hc & H & _).
  apply ret_ok_inv in H as [<- _]. exists choices. split; [reflexivity|].
  destruct (Py.truthy options).
  - apply bind_ok_inv in Hc as (? & first & ? & _ & Hc & _).
    apply bind_ok_inv in Hc as (? & text & ? & _ & Hc & _).
    apply bind_ok_inv in Hc as (? & suggestions & ? & Hs & Hc & _).
    apply ret_ok_inv in Hc as [<- _].
    apply suggestions_at_most_5 in Hs. rewrite length_map.
    split; [exact Hs | apply choices_name_is_value].
  - apply ret_ok_inv in Hc as [<- _]. split; [cbn; lia | constructor].
Qed.

(** C5: the reply to a verified auto-complete request carries at most five
    choices, each with its [name] equal to its [value]; and the reply is
    produced, with one choice per suggestion, whenever the lookup of the
    partial text returns. *)
Theorem autocomplete_choices (W : world) (ev : event) (b : list (string * json)) :
  verified_interaction W ev b -> interaction_type b 4 ->
  (forall tr resp,
     lambda_handler W ev = (tr, Ok resp) ->
     exists choices,
       resp = autocomplete_reply W choices
       /\ (length choices <= 5)%nat
       /\ Forall name_is_value choices)
  /\ (forall text tr suggestions,
        partial_text b text ->
        get_location_suggestions W text = (tr, Ok suggestions) ->
        lambda_handler W ev = (tr, Ok (autocomplete_reply W (map choice suggestions)))).
Proof.
  intros Hv Ht. rewrite (handler_verified W ev b Hv).
  unfold interaction_type in Ht. rewrite Ht. run. split.
  - intros tr resp. apply autocomplete_reply_shape.
  - intros text tr suggestions (d & f & rest & Hd & Ho & ->) Hs.
    unfold handle_autocomplete.
    run. rewrite Hd. run. rewrite Ho. run. cbn [Py.truthy]. run.
    rewrite Hs. repeat (rewrite bind_ok; cbn [calls outcome fst snd mret M_ret]).
    now rewrite !app_nil_r.
Qed.

Lemma autocomplete_choices_witness :
  exists tr choices,
    lambda_handler Fixture.online (Fixture.signed (Fixture.autocomplete_body "Mad"))
    = (tr, Ok (autocomplete_reply Fixture.online choices))
    /\ length choices = 5%nat /\ Forall name_is_value choices.
Proof.
  pose (ev := Fixture.signed (Fixture.autocomplete_body "Mad")).
  assert (verified_interaction Fixture.online ev
            match Fixture.autocomplete_body "Mad" with JObj b => b | _ => [] end) as Hv.
  { split; [vm_compute; reflexivity|]. eexists. split; reflexivity. }
  destruct (autocomplete_choices Fixture.online ev _ Hv eq_refl) as [Hall Hrun].
  eexists. eexists. split.
  - apply (Hrun (JStr "Mad")).
    + do 3 eexists. split; [reflexivity|]. split; reflexivity.
    + vm_compute. reflexivity.
  - split; [reflexivity | apply choices_name_is_value].
Defined.

(** ** Check-in *)

(** What a check-in posts: the embed built from the location, the message
    and the display name, followed by the images of the first four
    attachments. *)
Lemma checkin_posted_embeds (W : world) ev b nvs loc name urls :
  checkin W ev b nvs loc name urls ->
  posted_embeds (lambda_handler W ev)
  = Some (embed W (JStr loc) (default (JStr "") (supplied "message" nvs)) name
                (Quote.quote loc)
          :: map image_embed (firstn 4 urls)).
Proof.
  intros [Hv Ht Ho Hl Hne Hn Ha].
  rewrite (checkin_run W ev b nvs loc name urls Hv Ht Ho Hl Hne Hn Ha).
  unfold posted_embeds, posted. rewrite send_calls. reflexivity.
Qed.


(** C9: the first [min n 4] of the [n] attachments follow the main embed as
    image embeds, in order, and nothing else does: the embed of an attachment
    is [{"image": {"url": ...}}] with the URL of that attachment; of six
    attachments the first four are kept. *)
Theorem checkin_attachments_capped (W : world) ev b nvs loc name urls :
  checkin W ev b nvs loc name urls ->
  exists main extra,
    posted_embeds (lambda_handler W ev) = Some (main :: extra)
    /\ is_Some (embed_description main)
    /\ extra = map image_embed (firstn 4 urls)
    /\ Forall2 shows_image extra (firstn 4 urls)
    /\ map embed_image extra = map Some (firstn 4 urls)
    /\ length extra = Nat.min (length urls) 4
    /\ (length urls = 6%nat -> length extra = 4%nat).
Proof.
  intros H. do 2 eexists.
  split; [exact (checkin_posted_embeds W ev b nvs loc name urls H)|].
  split; [eexists; reflexivity|]. split; [reflexivity|].
  split; [apply image_embeds_shown|]. split; [apply image_embeds_shown|].
  rewrite length_map, length_firstn. split; lia.
Qed.

(** C8, amended: without a message option the description carries the
    placeholder of the code, [*No message provided*], in place of the
    message. *)
Theorem checkin_placeholder (W : world) ev b nvs loc name urls :
  checkin W ev b nvs loc name urls ->
  supplied "message" nvs = None ->
  exists main extra desc,
    posted_embeds (lambda_handler W ev) = Some (main :: extra)
    /\ embed_description main = Some desc
    /\ contains desc "*No message provided*"
    /\ contains desc ("**Message**: *No message provided*" +:+ nl).
Proof.
  intros H Hm. do 3 eexists.
  split; [exact (checkin_posted_embeds W ev b nvs loc name urls H)|].
  split; [reflexivity|]. rewrite Hm.
  unfold description, message_text. cbn [default from_option Py.truthy String.eqb negb].
  split; [find_substring|].
  exists ("**Location**: " +:+ loc +:+ nl),
         (nl +:+ "[View on Google Maps]" +:+ "(" +:+ search_url (Quote.quote loc) +:+ ")").
  rewrite !append_assoc. reflexivity.
Qed.

(** C10: a verified command submission with a location, whose payload has no
    [member], or whose [member] has no nickname (absent or null) and no
    [user] or a [user] without [username], makes [lambda_handler] raise
    [KeyError]: no outbound call is made and no response is returned. *)
Theorem checkin_without_member (W : world) ev b nvs (location : json) :
  verified_interaction W ev b -> interaction_type b 2 ->
  command_options b nvs ->
  supplied "location" nvs = Some location -> Py.truthy location = true ->
  lacks_display_name b ->
  exists k, lambda_handler W ev = ([], Raise (KeyError k)).
Proof.
  intros Hv Ht (d & opts & Hd & Ho & Hopts) Hloc Htruthy Hlack.
  destruct (display_name_missing b Hlack) as [k Hk]. exists k.
  rewrite (handler_verified W ev b Hv). unfold interaction_type in Ht.
  rewrite Ht. run. unfold handle_command. run. rewrite Hd. run. rewrite Ho. run.
  assert (Py.truthy (JArr opts) = true) as ->.
  { destruct Hopts; [discriminate Hloc | reflexivity]. }
  run. rewrite (scan_options_supplied opts nvs _ Hopts). run.
  rewrite Hloc. run. rewrite Htruthy, Hk. reflexivity.
Qed.

(** *** The check-ins of the fixture *)

Lemma six_photos_checkin :
  checkin Fixture.online (Fixture.signed Fixture.checkin_six_photos)
    (Fixture.bindings Fixture.checkin_six_photos)
    [("location", JStr "Madison Square Garden");
     ("message", JStr "Having a great time!")]
    "Madison Square Garden" (JStr "Ali") Fixture.photo_urls.
Proof.
  constructor.
  - split; [vm_compute; reflexivity|]. eexists. split; reflexivity.
  - reflexivity.
  - do 2 eexists. split; [reflexivity|]. split; [reflexivity|].
    repeat constructor; eexists; (split; [reflexivity|]); split; reflexivity.
  - reflexivity.
  - discriminate.
  - eexists. split; [reflexivity|]. reflexivity.
  - repeat constructor; eexists; split; reflexivity.
Defined.

Lemma plain_checkin :
  checkin Fixture.online (Fixture.signed Fixture.checkin_plain)
    (Fixture.bindings Fixture.checkin_plain)
    [("location", JStr "Madison Square Garden")]
    "Madison Square Garden" (JStr "alice") [].
Proof.
  constructor.
  - split; [vm_compute; reflexivity|]. eexists. split; reflexivity.
  - reflexivity.
  - do 2 eexists. split; [reflexivity|]. split; [reflexivity|].
    repeat constructor; eexists; (split; [reflexivity|]); split; reflexivity.
  - reflexivity.
  - discriminate.
  - eexists. split; [reflexivity|]. cbn. eexists. split; reflexivity.
  - reflexivity.
Defined.


Lemma checkin_attachments_capped_witness :
  exists main extra,
    posted_embeds (lambda_handler Fixture.online
                     (Fixture.signed Fixture.checkin_six_photos))
    = Some (main :: extra)
    /\ is_Some (embed_description main)
    /\ extra = map image_embed (firstn 4 Fixture.photo_urls)
    /\ map embed_image extra
       = [Some (JStr "https://cdn.example/1.png"); Some (JStr "https://cdn.example/2.png");
          Some (JStr "https://cdn.example/3.png"); Some (JStr "https://cdn.example/4.png")]
    /\ length extra = 4%nat.
Proof.
  destruct (checkin_attachments_capped Fixture.online _ _ _ _ _ _ six_photos_checkin)
    as (main & extra & Hp & Hd & He & _ & Hi & _ & H6).
  exists main, extra. repeat split; try assumption. apply H6. reflexivity.
Defined.

Lemma checkin_placeholder_witness :
  exists main extra desc,
    posted_embeds (lambda_handler Fixture.online (Fixture.signed Fixture.checkin_plain))
    = Some (main :: extra)
    /\ embed_description main = Some desc
    /\ contains desc "*No message provided*"
    /\ contains desc ("**Message**: *No message provided*" +:+ nl).
Proof.
  exact (checkin_placeholder Fixture.online _ _ _ _ _ _ plain_checkin eq_refl).
Defined.

(** C8 fails as worded: the placeholder of the code begins with a capital,
    so the words [no message provided] do not occur in the description. *)
Lemma placeholder_is_capitalised :
  (exists main extra desc,
     posted_embeds (lambda_handler Fixture.online (Fixture.signed Fixture.checkin_plain))
     = Some (main :: extra)
     /\ embed_description main = Some desc
     /\ containsb desc "no message provided" = false
     /\ containsb desc "No message provided" = true)
  /\ ~ placeholder_is "no message provided".
Proof.
  split.
  - do 3 eexists. split; [vm_compute; reflexivity|].
    split; [reflexivity|]. split; vm_compute; reflexivity.
  - intros H.
    destruct (H Fixture.online _ _ _ _ _ _ plain_checkin eq_refl)
      as (main & extra & desc & Hp & Hd & Hc).
    rewrite (checkin_posted_embeds Fixture.online _ _ _ _ _ _ plain_checkin) in Hp.
    injection Hp as <- <-. injection Hd as <-.
    apply containsb_spec in Hc. vm_compute in Hc. discriminate Hc.
Qed.

Lemma checkin_without_member_witness :
  (exists k, lambda_handler Fixture.online (Fixture.signed Fixture.checkin_no_member)
             = ([], Raise (KeyError k)))
  /\ (exists k, lambda_handler Fixture.online (Fixture.signed Fixture.checkin_no_username)
                = ([], Raise (KeyError k))).
Proof.
  split.
  - apply (checkin_without_member Fixture.online _
             (Fixture.bindings Fixture.checkin_no_member)
             [("location", JStr "Madison Square Garden")]
             (JStr "Madison Square Garden")).
    + split; [vm_compute; reflexivity|]. eexists. split; reflexivity.
    + reflexivity.
    + do 2 eexists. split; [reflexivity|]. split; [reflexivity|].
      repeat constructor; eexists; (split; [reflexivity|]); split; reflexivity.
    + reflexivity.
    + reflexivity.
    + left. reflexivity.
  - apply (checkin_without_member Fixture.online _
             (Fixture.bindings Fixture.checkin_no_username)
             [("location", JStr "Madison Square Garden")]
             (JStr "Madison Square Garden")).
    + split; [vm_compute; reflexivity|]. eexists. split; reflexivity.
    + reflexivity.
    + do 2 eexists. split; [reflexivity|]. split; [reflexivity|].
      repeat constructor; eexists; (split; [reflexivity|]); split; reflexivity.
    + reflexivity.
    + reflexivity.
    + right. eexists. split; [reflexivity|]. split; [right; reflexivity|].
      right. eexists. split; reflexivity.
Defined.

(** ** One reply per request *)

Lemma command_reply_shape (W : world) (body interaction_id interaction_token : json)
    tr resp :
  handle_command W body interaction_id interaction_token = (tr, Ok resp) ->
  resp = acknowledgment.
Proof.
  assert (forall tr resp,
            reply_instructions W interaction_id interaction_token = (tr, Ok resp) ->
            resp = acknowledgment) as Hins.
  { unfold reply_instructions. intros tr' resp' H.
    apply bind_ok_inv in H as (? & ? & ? & _ & H & _).
    now apply ret_ok_inv in H as [<- _]. }
  unfold handle_command. intros H.
  apply bind_ok_inv in H as (? & data & ? & _ & H & _).
  apply bind_ok_inv in H as (? & options & ? & _ & H & _).
  destruct (Py.truthy options); [|now apply Hins in H].
  apply bind_ok_inv in H as (? & opts & ? & _ & H & _).
  apply bind_ok_inv in H as (? & st & ? & _ & H & _).
  destruct (Py.truthy st.1); [|now apply Hins in H].
  apply bind_ok_inv in H as (? & name & ? & _ & H & _).
  apply bind_ok_inv in H as (? & enc & ? & _ & H & _).
  apply bind_ok_inv in H as (? & extra & ? & _ & H & _).
  apply bind_ok_inv in H as (? & ? & ? & _ & H & _).
  now apply ret_ok_inv in H as [<- _].
Qed.

(** C4 fails on the code: the check-in of an invoker without [member] ends
    in a [KeyError], and the request gets no reply. *)
Lemma request_without_reply :
  lambda_handler Fixture.online (Fixture.signed Fixture.checkin_no_member)
  = ([], Raise (KeyError (JStr "member")))
  /\ ~ always_one_reply.
Proof.
  split; [vm_compute; reflexivity|].
  intros H.
  destruct (H Fixture.online (Fixture.signed Fixture.checkin_no_member))
    as (resp & kind & Hr & _).
  vm_compute in Hr. discriminate Hr.
Qed.

(** C4, amended: a run of [lambda_handler] ends with at most one reply.
    When it returns, what it returns is one of the liveness reply, the
    auto-complete reply, the command acknowledgment and the error replies
    (401, 400); it does return the 401 when the signature check says false,
    the liveness reply for a verified interaction of type 1, and the 400 for
    a verified interaction of a type other than 1, 2 and 4.  Elsewhere an
    exception can end the run instead, and then there is no reply. *)
Theorem one_reply_when_it_returns (W : world) (ev : event) :
  (forall tr resp,
     lambda_handler W ev = (tr, Ok resp) -> exists kind, is_reply W kind resp)
  /\ (verify_signature W ev = Ok false ->
      lambda_handler W ev = ([], Ok unauthorized))
  /\ (forall b, verified_interaction W ev b -> interaction_type b 1 ->
                lambda_handler W ev = ([], Ok (pong W)))
  /\ (forall b n, verified_interaction W ev b -> interaction_type b n ->
                  n <> 1 -> n <> 2 -> n <> 4 ->
                  lambda_handler W ev = ([], Ok (unhandled W))).
Proof.
  split; [|split; [|split]].
  - unfold lambda_handler. intros tr resp H.
    apply bind_ok_inv in H as (? & verified & ? & _ & H & _).
    destruct verified; cbn [negb] in H;
      [|apply ret_ok_inv in H as [<- _]; eexists; constructor].
    apply bind_ok_inv in H as (? & raw & ? & _ & H & _).
    apply bind_ok_inv in H as (? & body & ? & _ & H & _).
    apply bind_ok_inv in H as (? & type & ? & _ & H & _).
    apply bind_ok_inv in H as (? & id & ? & _ & H & _).
    apply bind_ok_inv in H as (? & token & ? & _ & H & _).
    destruct (Py.eq_int type 1);
      [apply ret_ok_inv in H as [<- _]; eexists; constructor|].
    destruct (Py.eq_int type 4).
    { apply autocomplete_reply_shape in H as (choices & -> & _).
      eexists. constructor. }
    destruct (Py.eq_int type 2).
    { apply command_reply_shape in H as ->. eexists. constructor. }
    apply ret_ok_inv in H as [<- _]. eexists. constructor.
  - apply handler_rejects.
  - intros b Hv Ht. rewrite (handler_verified W ev b Hv).
    unfold interaction_type in Ht. rewrite Ht. reflexivity.
  - intros b n Hv Ht H1 H2 H4. rewrite (handler_verified W ev b Hv).
    unfold interaction_type in Ht. rewrite Ht. cbn [default from_option id Py.eq_int].
    rewrite !(proj2 (Z.eqb_neq _ _)) by assumption. reflexivity.
Qed.

Lemma one_reply_when_it_returns_witness :
  lambda_handler Fixture.online (Fixture.signed Fixture.ping_body)
  = ([], Ok (pong Fixture.online))
  /\ lambda_handler Fixture.online
       (Fixture.request Fixture.bad_signature_hex Fixture.ping_body)
     = ([], Ok unauthorized).
Proof.
  split.
  - apply (proj1 (proj2 (proj2 (one_reply_when_it_returns Fixture.online _)))
             (Fixture.bindings Fixture.ping_body)).
    + split; [vm_compute; reflexivity|]. eexists. split; reflexivity.
    + reflexivity.
  - apply (proj1 (proj2 (one_reply_when_it_returns Fixture.online _))).
    vm_compute. reflexivity.
Defined.


(** * Further properties of the code *)

(** ** Calls and outcome of a composite *)

Lemma calls_bind {A B} (m : M A) (f : A -> M B) :
  calls (m ≫= f)
  = (calls m ++ match outcome m with Ok a => calls (f a) | Raise _ => [] end)%list.
Proof.
  destruct m as [tr [a|e]]; unfold mbind, M_bind, calls, outcome; cbn [fst snd].
  - destruct (f a); reflexivity.
  - now rewrite app_nil_r.
Qed.

Lemma outcome_bind {A B} (m : M A) (f : A -> M B) :
  outcome (m ≫= f)
  = match outcome m with Ok a => outcome (f a) | Raise e => Raise e end.
Proof.
  destruct m as [tr [a|e]]; unfold mbind, M_bind, calls, outcome; cbn [fst snd].
  - destruct (f a); reflexivity.
  - reflexivity.
Qed.

Lemma calls_lift {A B} (r : result A) (f : A -> M B) :
  calls (lift r ≫= f) = match r with Ok a => calls (f a) | Raise _ => [] end.
Proof. rewrite calls_bind. destruct r; reflexivity. Qed.

Lemma outcome_lift {A B} (r : result A) (f : A -> M B) :
  outcome (lift r ≫= f) = match r with Ok a => outcome (f a) | Raise e => Raise e end.
Proof. rewrite outcome_bind. destruct r; reflexivity. Qed.

(** Steps through the binds of a computation whose calls are counted. *)
Ltac count_calls :=
  repeat (rewrite calls_lift;
          match goal with
          | |- context [match ?r with Ok _ => _ | Raise _ => _ end] =>
              destruct r; [|constructor]
          end).

Lemma suggestions_one_call (W : world) (input : json) :
  one_call_at_most W (calls (get_location_suggestions W input)).
Proof.
  destruct (Py.truthy input) eqn:Ht.
  - rewrite (suggestions_calls W input Ht). constructor.
  - rewrite (suggestions_empty_input W input Ht). constructor.
Qed.

Lemma autocomplete_one_call (W : world) (body : json) :
  one_call_at_most W (calls (handle_autocomplete W body)).
Proof.
  unfold handle_autocomplete. count_calls. rewrite calls_bind.
  assert (forall (m : M (list json)),
            match outcome m with
            | Ok a => calls (mret (autocomplete_reply W a) : M response)
            | Raise _ => []
            end = []) as Hret by (intros [? [?|?]]; reflexivity).
  rewrite Hret, app_nil_r. destruct (Py.truthy _); [|constructor].
  count_calls. rewrite calls_bind.
  assert (forall (m : M (list json)),
            match outcome m with
            | Ok a => calls (mret (map choice a) : M (list json))
            | Raise _ => []
            end = []) as Hret' by (intros [? [?|?]]; reflexivity).
  rewrite Hret', app_nil_r. apply suggestions_one_call.
Qed.

Lemma command_one_call (W : world) (body id token : json) :
  one_call_at_most W (calls (handle_command W body id token)).
Proof.
  unfold handle_command, reply_instructions. count_calls.
  destruct (Py.truthy _); [|rewrite send_calls; constructor].
  count_calls.
  destruct (Py.truthy _); [|rewrite send_calls; constructor].
  count_calls. rewrite send_calls. constructor.
Qed.

(** ** The handler as a whole *)

(** X1: an invocation calls out at most once: it makes no call, or one GET
    to the place service, or one POST to the callback of the interaction. *)
Theorem handler_calls_at_most_once (W : world) (ev : event) :
  one_call_at_most W (calls (lambda_handler W ev))
  /\ (length (calls (lambda_handler W ev)) <= 1)%nat.
Proof.
  assert (one_call_at_most W (calls (lambda_handler W ev))) as H.
  { unfold lambda_handler. count_calls.
    match goal with |- context [negb ?b] => destruct b end; cbn [negb];
      [|constructor].
    count_calls.
    destruct (Py.eq_int _ 1); [constructor|].
    destruct (Py.eq_int _ 4); [apply autocomplete_one_call|].
    destruct (Py.eq_int _ 2); [apply command_one_call | constructor]. }
  split; [exact H|]. destruct H; cbn; lia.
Qed.

Lemma verified_is_accepted (W : world) (ev : event) :
  verify_signature W ev = Ok true -> accepted W ev.
Proof.
  unfold verify_signature, accepted.
  destruct (VerifyKey W (PUBLIC_KEY W)) as [key|e]; cbn [mbind result_bind rbind];
    [|destruct e; discriminate].
  destruct (Hex.fromhex _) as [sig|e]; cbn [mbind result_bind rbind];
    [|destruct e; discriminate].
  destruct (VerifyKey_verify W key _ sig) as [out|e] eqn:Hv;
    cbn [mbind result_bind rbind]; [|destruct e; discriminate].
  intros _. exists key, sig, out. auto.
Qed.

(** X2: nothing happens on behalf of a request that PyNaCl did not accept:
    when an invocation makes an outbound call, or returns a response other
    than the 401, the signature header was accepted as a signature of time
    stamp and body under the configured public key. *)
Theorem handler_acts_only_when_accepted (W : world) (ev : event) :
  calls (lambda_handler W ev) <> []
  \/ (exists resp, outcome (lambda_handler W ev) = Ok resp /\ statusCode resp <> 401) ->
  accepted W ev.
Proof.
  intros H. destruct (verify_signature W ev) as [[|]|e] eqn:Hv.
  - now apply verified_is_accepted.
  - rewrite (handler_rejects W ev Hv) in H.
    destruct H as [H | (resp & [= <-] & H)]; contradiction.
  - unfold lambda_handler in H. rewrite Hv, bind_lift_raise in H.
    destruct H as [H | (resp & H & _)]; [contradiction | discriminate].
Qed.

Lemma handler_acts_only_when_accepted_witness :
  accepted Fixture.online (Fixture.signed (Fixture.autocomplete_body "Mad")).
Proof.
  apply handler_acts_only_when_accepted. left. vm_compute. discriminate.
Defined.

(** ** Commands without a location *)

Lemma command_without_location (W : world) ev b :
  verified_interaction W ev b -> interaction_type b 2 -> no_location b ->
  lambda_handler W ev
  = reply_instructions W (default JNull (Py.assoc "id" b))
                        (default JNull (Py.assoc "token" b)).
Proof.
  intros Hv Ht Hno. rewrite (handler_verified W ev b Hv).
  unfold interaction_type in Ht. rewrite Ht. run. unfold handle_command. run.
  destruct Hno as [-> | (d & -> & Hopt)]; run; [reflexivity|].
  destruct Hopt as [-> | [-> | (opts & nvs & -> & Hopts & Hloc)]]; run;
    try reflexivity.
  destruct (Py.truthy (JArr opts)); [|reflexivity]. run.
  rewrite (scan_options_supplied opts nvs _ Hopts). run.
  destruct (supplied "location" nvs) as [v|]; cbn [default from_option id].
  - now rewrite Hloc.
  - reflexivity.
Qed.

(** X3: a verified command submission without a location (no options at
    all, no location among them, or an empty one) makes exactly one call, the
    post of the usage instructions with [flags] 64 to the callback of the
    interaction, and, once that post has returned, is acknowledged with
    status 200 and an empty body. *)
Theorem command_without_location_instructs (W : world) ev b :
  verified_interaction W ev b -> interaction_type b 2 -> no_location b ->
  let url := callback_url W (default JNull (Py.assoc "id" b))
                            (default JNull (Py.assoc "token" b)) in
  let headers := [("Content-Type", "application/json")] in
  calls (lambda_handler W ev) = [RequestsPost url headers instructions]
  /\ (data ← field "data" instructions; field "flags" data) = Some (JNum 64)
  /\ (forall r, requests_post W url headers instructions = Ok r ->
                outcome (lambda_handler W ev)
                = Ok {| statusCode := 200; resp_headers := None; resp_body := "" |}).
Proof.
  intros Hv Ht Hno. cbv zeta. rewrite (command_without_location W ev b Hv Ht Hno).
  unfold reply_instructions. split; [apply send_calls|]. split; [reflexivity|].
  intros r Hr. unfold send_interaction_response, perform. rewrite Hr. reflexivity.
Qed.

Lemma command_without_location_instructs_witness :
  let ev := Fixture.signed Scenario.empty_location in
  calls (lambda_handler Scenario.up ev)
  = [RequestsPost "https://discord.com/api/v10/interactions/1001/tok/callback"
                  [("Content-Type", "application/json")] instructions]
  /\ outcome (lambda_handler Scenario.up ev) = Ok acknowledgment.
Proof.
  destruct (command_without_location_instructs Scenario.up
              (Fixture.signed Scenario.empty_location)
              (Fixture.bindings Scenario.empty_location))
    as (Hc & _ & Ho).
  - split; [vm_compute; reflexivity | eexists; split; reflexivity].
  - reflexivity.
  - right. eexists. split; [reflexivity|]. right. right.
    exists [Fixture.option_of "location" (JStr "")], [("location", JStr "")].
    split; [reflexivity|]. split; [|reflexivity].
    repeat constructor. eexists. split; [reflexivity|]. split; reflexivity.
  - split; [exact Hc|].
    apply (Ho {| status_code := 204; text := "" |}). reflexivity.
Defined.

(** ** Check-ins, beyond the embed *)

(** A check-in up to its attachments. *)
Lemma checkin_run_attachments (W : world) ev b nvs loc name :
  verified_interaction W ev b -> interaction_type b 2 ->
  command_options b nvs ->
  supplied "location" nvs = Some (JStr loc) -> loc <> "" ->
  invoker_name b name ->
  lambda_handler W ev
  = (extra ← lift (attachment_embeds (JObj b));
     send_interaction_response W
       (default JNull (Py.assoc "id" b)) (default JNull (Py.assoc "token" b))
       (checkin_message W name
          (embed W (JStr loc) (default (JStr "") (supplied "message" nvs)) name
                 (Quote.quote loc)
           :: extra)) ;;
     mret acknowledgment).
Proof.
  intros Hv Ht (d & opts & Hd & Ho & Hopts) Hloc Hne Hname.
  rewrite (handler_verified W ev b Hv). unfold interaction_type in Ht.
  rewrite Ht. run. unfold handle_command. run. rewrite Hd. run.
  rewrite Ho. run.
  assert (Py.truthy (JArr opts) = true) as ->.
  { destruct Hopts; [discriminate Hloc | reflexivity]. }
  run. rewrite (scan_options_supplied opts nvs _ Hopts). run.
  rewrite Hloc. run.
  assert (Py.truthy (JStr loc) = true) as ->.
  { cbn. destruct loc; [contradiction | reflexivity]. }
  rewrite (display_name_resolves b name Hname). run.
  cbn [quote_value]. run. reflexivity.
Qed.

Lemma send_outcome (W : world) (id token message : json) :
  outcome (send_interaction_response W id token message ;; mret acknowledgment)
  = match requests_post W (callback_url W id token)
                        [("Content-Type", "application/json")] message with
    | Ok _ => Ok acknowledgment
    | Raise e => Raise e
    end.
Proof.
  unfold send_interaction_response, outcome, perform, mbind, M_bind.
  destruct (requests_post W _ _ _); reflexivity.
Qed.

(** X4: the acknowledgment of a check-in depends on the callback post only
    through whether it returned: whatever the endpoint answers, the request
    is acknowledged with status 200 and an empty body; when the post raises,
    that exception ends the invocation and there is no response. *)
Theorem checkin_acknowledged_after_post (W : world) ev b nvs loc name urls :
  checkin W ev b nvs loc name urls ->
  exists url payload,
    let headers := [("Content-Type", "application/json")] in
    calls (lambda_handler W ev) = [RequestsPost url headers payload]
    /\ (forall r, requests_post W url headers payload = Ok r ->
                  outcome (lambda_handler W ev)
                  = Ok {| statusCode := 200; resp_headers := None; resp_body := "" |})
    /\ (forall e, requests_post W url headers payload = Raise e ->
                  outcome (lambda_handler W ev) = Raise e).
Proof.
  intros [Hv Ht Ho Hl Hne Hn Ha].
  rewrite (checkin_run W ev b nvs loc name urls Hv Ht Ho Hl Hne Hn Ha).
  do 2 eexists. cbv zeta. split; [apply send_calls|].
  rewrite send_outcome. split; intros ? ->; reflexivity.
Qed.

Lemma scenario_six_photos (get post : result http_response) :
  checkin (Scenario.world_of get post) (Fixture.signed Fixture.checkin_six_photos)
    (Fixture.bindings Fixture.checkin_six_photos)
    [("location", JStr "Madison Square Garden");
     ("message", JStr "Having a great time!")]
    "Madison Square Garden" (JStr "Ali") Fixture.photo_urls.
Proof.
  constructor.
  - split; [vm_compute; reflexivity|]. eexists. split; reflexivity.
  - reflexivity.
  - do 2 eexists. split; [reflexivity|]. split; [reflexivity|].
    repeat constructor; eexists; (split; [reflexivity|]); split; reflexivity.
  - reflexivity.
  - discriminate.
  - eexists. split; [reflexivity|]. reflexivity.
  - repeat constructor; eexists; split; reflexivity.
Defined.

Lemma checkin_acknowledged_after_post_witness :
  let ev := Fixture.signed Fixture.checkin_six_photos in
  outcome (lambda_handler Scenario.callback_refuses ev) = Ok acknowledgment
  /\ outcome (lambda_handler Scenario.callback_down ev) = Raise RequestException
  /\ length (calls (lambda_handler Scenario.callback_down ev)) = 1%nat.
Proof.
  cbv zeta. split; [|split].
  - destruct (checkin_acknowledged_after_post _ _ _ _ _ _ _
                (scenario_six_photos (Scenario.answer 200 (Fixture.dumps Fixture.seven_places))
                                     (Scenario.answer 400 "{}")))
      as (url & payload & _ & Hok & _).
    apply (Hok {| status_code := 400; text := "{}" |}). reflexivity.
  - destruct (checkin_acknowledged_after_post _ _ _ _ _ _ _
                (scenario_six_photos (Scenario.answer 200 (Fixture.dumps Fixture.seven_places))
                                     (Raise RequestException)))
      as (url & payload & _ & _ & Hraise).
    apply Hraise. reflexivity.
  - destruct (checkin_acknowledged_after_post _ _ _ _ _ _ _
                (scenario_six_photos (Scenario.answer 200 (Fixture.dumps Fixture.seven_places))
                                     (Raise RequestException)))
      as (url & payload & Hc & _ & _).
    unfold Scenario.callback_down. now rewrite Hc.
Defined.

Lemma checkin_posted_content (W : world) ev b nvs loc name urls :
  checkin W ev b nvs loc name urls ->
  posted_content (lambda_handler W ev)
  = Some (JStr (format W name +:+ " just checked in!")).
Proof.
  intros [Hv Ht Ho Hl Hne Hn Ha].
  rewrite (checkin_run W ev b nvs loc name urls Hv Ht Ho Hl Hne Hn Ha).
  unfold posted_content, posted. rewrite send_calls. reflexivity.
Qed.

(** X5: the invoker is named by the nickname when [member.nick] is a
    non-empty string, and by [member.user.username] when the nickname is
    absent, null or the empty string; that name starts the text of the
    posted message and ends the footer of the embed. *)
Theorem checkin_names_invoker (W : world) ev b nvs loc name urls :
  checkin W ev b nvs loc name urls ->
  (exists main extra,
     posted_embeds (lambda_handler W ev) = Some (main :: extra)
     /\ embed_footer main = Some (JStr ("Checked in by " +:+ format W name)))
  /\ posted_content (lambda_handler W ev)
     = Some (JStr (format W name +:+ " just checked in!"))
  /\ (forall m nick,
        Py.assoc "member" b = Some (JObj m) ->
        Py.assoc "nick" m = Some (JStr nick) -> nick <> "" ->
        name = JStr nick)
  /\ (forall m u username,
        Py.assoc "member" b = Some (JObj m) ->
        Py.assoc "nick" m = None \/ Py.assoc "nick" m = Some JNull
        \/ Py.assoc "nick" m = Some (JStr "") ->
        Py.assoc "user" m = Some (JObj u) ->
        Py.assoc "username" u = Some username ->
        name = username).
Proof.
  intros H. split; [|split; [|split]].
  - do 2 eexists.
    split; [exact (checkin_posted_embeds W ev b nvs loc name urls H) | reflexivity].
  - exact (checkin_posted_content W ev b nvs loc name urls H).
  - intros m nick Hm Hnick Hne. destruct (checkin_invoker _ _ _ _ _ _ _ H) as (m' & Hm' & Hname).
    rewrite Hm in Hm'. injection Hm' as <-. rewrite Hnick in Hname.
    cbn [default from_option id Py.truthy] in Hname.
    destruct nick; [contradiction | exact Hname].
  - intros m u username Hm Hnick Hu Hun.
    destruct (checkin_invoker _ _ _ _ _ _ _ H) as (m' & Hm' & Hname).
    rewrite Hm in Hm'. injection Hm' as <-.
    assert (Py.truthy (default JNull (Py.assoc "nick" m)) = false) as Hf
      by (destruct Hnick as [-> | [-> | ->]]; reflexivity).
    rewrite Hf in Hname. destruct Hname as (u' & Hu' & Hun').
    rewrite Hu in Hu'. injection Hu' as <-. congruence.
Qed.

Lemma scenario_empty_nick (get post : result http_response) :
  checkin (Scenario.world_of get post) (Fixture.signed Scenario.empty_nick)
    (Fixture.bindings Scenario.empty_nick)
    [("location", JStr "Madison Square Garden")]
    "Madison Square Garden" (JStr "alice") [].
Proof.
  constructor.
  - split; [vm_compute; reflexivity|]. eexists. split; reflexivity.
  - reflexivity.
  - do 2 eexists. split; [reflexivity|]. split; [reflexivity|].
    repeat constructor; eexists; (split; [reflexivity|]); split; reflexivity.
  - reflexivity.
  - discriminate.
  - eexists. split; [reflexivity|]. cbn. eexists. split; reflexivity.
  - reflexivity.
Defined.

Lemma checkin_names_invoker_witness :
  posted_content (lambda_handler Scenario.up (Fixture.signed Scenario.empty_nick))
  = Some (JStr "alice just checked in!")
  /\ posted_content (lambda_handler Scenario.up (Fixture.signed Fixture.checkin_six_photos))
     = Some (JStr "Ali just checked in!").
Proof.
  split.
  - exact (proj1 (proj2 (checkin_names_invoker _ _ _ _ _ _ _
                           (scenario_empty_nick _ _)))).
  - exact (proj1 (proj2 (checkin_names_invoker _ _ _ _ _ _ _
                           (scenario_six_photos _ _)))).
Defined.

(** X6: a message option is shown as it was given, after [**Message**: ];
    a message that is the empty string is shown as the placeholder. *)
Theorem checkin_shows_message (W : world) ev b nvs loc name urls (message : string) :
  checkin W ev b nvs loc name urls ->
  supplied "message" nvs = Some (JStr message) ->
  exists main extra desc,
    posted_embeds (lambda_handler W ev) = Some (main :: extra)
    /\ embed_description main = Some desc
    /\ contains desc
         ("**Message**: "
          +:+ (if String.eqb message "" then "*No message provided*" else message)
          +:+ nl +:+ nl +:+ "[View on Google Maps]").
Proof.
  intros H Hm. do 3 eexists.
  split; [exact (checkin_posted_embeds W ev b nvs loc name urls H)|].
  split; [reflexivity|]. rewrite Hm.
  unfold description, message_text. cbn [default from_option id Py.truthy format].
  exists ("**Location**: " +:+ loc +:+ nl),
         ("(" +:+ search_url (Quote.quote loc) +:+ ")").
  destruct (String.eqb message ""); cbn [negb]; rewrite !append_assoc; reflexivity.
Qed.

Lemma scenario_empty_message (get post : result http_response) :
  checkin (Scenario.world_of get post) (Fixture.signed Scenario.empty_message)
    (Fixture.bindings Scenario.empty_message)
    [("location", JStr "Madison Square Garden"); ("message", JStr "")]
    "Madison Square Garden" (JStr "alice") [].
Proof.
  constructor.
  - split; [vm_compute; reflexivity|]. eexists. split; reflexivity.
  - reflexivity.
  - do 2 eexists. split; [reflexivity|]. split; [reflexivity|].
    repeat constructor; eexists; (split; [reflexivity|]); split; reflexivity.
  - reflexivity.
  - discriminate.
  - eexists. split; [reflexivity|]. cbn. eexists. split; reflexivity.
  - reflexivity.
Defined.

Lemma checkin_shows_message_witness :
  (exists main extra desc,
     posted_embeds (lambda_handler Scenario.up (Fixture.signed Fixture.checkin_six_photos))
     = Some (main :: extra)
     /\ embed_description main = Some desc
     /\ contains desc ("**Message**: Having a great time!" +:+ nl +:+ nl
                       +:+ "[View on Google Maps]"))
  /\ (exists main extra desc,
        posted_embeds (lambda_handler Scenario.up (Fixture.signed Scenario.empty_message))
        = Some (main :: extra)
        /\ embed_description main = Some desc
        /\ contains desc ("**Message**: *No message provided*" +:+ nl +:+ nl
                          +:+ "[View on Google Maps]")).
Proof.
  split.
  - exact (checkin_shows_message _ _ _ _ _ _ _ _ (scenario_six_photos _ _) eq_refl).
  - exact (checkin_shows_message _ _ _ _ _ _ _ _ (scenario_empty_message _ _) eq_refl).
Defined.

Lemma quote_excludes (c : ascii) (s : string) :
  url_charb c = false -> ~ In c (list_ascii_of_string (Quote.quote s)).
Proof.
  intros Hc Hin. pose proof (quote_alphabet s) as H.
  rewrite List.Forall_forall in H. unfold url_charb in Hc.
  apply orb_false_iff in Hc as [Hs Hp].
  destruct (H _ Hin) as [Hsafe | ->]; [congruence | discriminate].
Qed.

(** X7: the static-map URL of the embed is the fixed address with the five
    parameters [center], [zoom], [size], [markers] and [key], in which the
    location occurs only in its encoded form, free of [&], [=], [?], [#],
    [|] and space, so that the text of the user cannot add or change a
    parameter; the last parameter is the Google Maps API key of the
    configuration, which is thereby part of the posted message. *)
Theorem checkin_map_url (W : world) ev b nvs loc name urls :
  checkin W ev b nvs loc name urls ->
  exists main extra,
    posted_embeds (lambda_handler W ev) = Some (main :: extra)
    /\ embed_image main
       = Some (JStr ("https://maps.googleapis.com/maps/api/staticmap?center="
                     +:+ Quote.quote loc
                     +:+ "&zoom=15&size=600x300&markers=color:red|"
                     +:+ Quote.quote loc
                     +:+ "&key=" +:+ GOOGLE_MAPS_API_KEY W))
    /\ Forall (fun c => ~ In c (list_ascii_of_string (Quote.quote loc)))
              ["&"; "="; "?"; "#"; "|"; " "]%char.
Proof.
  intros H. do 2 eexists.
  split; [exact (checkin_posted_embeds W ev b nvs loc name urls H)|].
  split; [reflexivity|].
  repeat constructor; apply quote_excludes; reflexivity.
Qed.

Lemma scenario_slashes (get post : result http_response) :
  checkin (Scenario.world_of get post) (Fixture.signed Scenario.slashes)
    (Fixture.bindings Scenario.slashes)
    [("location", JStr "a&key=x)#")] "a&key=x)#" (JStr "alice") [].
Proof.
  constructor.
  - split; [vm_compute; reflexivity|]. eexists. split; reflexivity.
  - reflexivity.
  - do 2 eexists. split; [reflexivity|]. split; [reflexivity|].
    repeat constructor; eexists; (split; [reflexivity|]); split; reflexivity.
  - reflexivity.
  - discriminate.
  - eexists. split; [reflexivity|]. cbn. eexists. split; reflexivity.
  - reflexivity.
Defined.

Lemma checkin_map_url_witness :
  exists main extra,
    posted_embeds (lambda_handler Scenario.up (Fixture.signed Scenario.slashes))
    = Some (main :: extra)
    /\ embed_image main
       = Some (JStr ("https://maps.googleapis.com/maps/api/staticmap?center="
                     +:+ "a%26key%3Dx%29%23"
                     +:+ "&zoom=15&size=600x300&markers=color:red|"
                     +:+ "a%26key%3Dx%29%23"
                     +:+ "&key=maps-key")).
Proof.
  destruct (checkin_map_url _ _ _ _ _ _ _ (scenario_slashes
              (Scenario.answer 200 (Fixture.dumps Fixture.seven_places))
              (Scenario.answer 204 "")))
    as (main & extra & Hp & Hi & _).
  exists main, extra. split; [exact Hp | exact Hi].
Defined.

(** ** Attachments and options *)

Lemma rmap_list_app {A B} (f : A -> result B) (xs ys : list A) :
  rmap_list f (xs ++ ys)
  = rbind (rmap_list f xs) (fun us => rbind (rmap_list f ys) (fun vs => Ok (us ++ vs)%list)).
Proof.
  induction xs as [|x xs IH]; cbn [rmap_list app rbind].
  - destruct (rmap_list f ys); reflexivity.
  - destruct (f x); [|reflexivity]. cbn [rbind]. rewrite IH.
    destruct (rmap_list f xs); [|reflexivity]. cbn [rbind].
    destruct (rmap_list f ys); reflexivity.
Qed.

(** X8: only the first four attachments are looked at.  When they carry a
    URL, the embeds [{"image": {"url": ...}}] with their URLs follow the main
    embed, whatever comes after them, even entries that are no attachments;
    when one of them is an object without [url], the check-in ends in
    [KeyError] before anything is posted. *)
Theorem checkin_reads_four_attachments (W : world) ev b nvs loc name
    (atts : list json) :
  verified_interaction W ev b -> interaction_type b 2 ->
  command_options b nvs ->
  supplied "location" nvs = Some (JStr loc) -> loc <> "" ->
  invoker_name b name ->
  Py.assoc "attachments" b = Some (JArr atts) ->
  (forall urls,
     Forall2 is_attachment (firstn 4 atts) urls ->
     exists main extra,
       posted_embeds (lambda_handler W ev) = Some (main :: extra)
       /\ Forall2 shows_image extra urls
       /\ map embed_image extra = map Some urls)
  /\ (forall good urls f rest,
        firstn 4 atts = (good ++ JObj f :: rest)%list ->
        Forall2 is_attachment good urls ->
        Py.assoc "url" f = None ->
        lambda_handler W ev = ([], Raise (KeyError (JStr "url")))).
Proof.
  intros Hv Ht Ho Hl Hne Hn Ha.
  rewrite (checkin_run_attachments W ev b nvs loc name Hv Ht Ho Hl Hne Hn).
  unfold attachment_embeds. cbn [Py.get]. rewrite Ha. run. split.
  - intros urls Hurls. rewrite (attachments_embedded _ _ Hurls). run.
    do 2 eexists. split; [|apply image_embeds_shown].
    unfold posted_embeds, posted. rewrite send_calls. reflexivity.
  - intros good urls f rest Hsplit Hgood Hf. rewrite Hsplit, rmap_list_app.
    rewrite (attachments_embedded _ _ Hgood). cbn [rbind rmap_list Py.subscript].
    rewrite Hf. reflexivity.
Qed.

Lemma checkin_reads_four_attachments_witness :
  (exists main extra,
     posted_embeds (lambda_handler Scenario.up (Fixture.signed Scenario.bad_fifth_photo))
     = Some (main :: extra)
     /\ Forall2 shows_image extra (firstn 4 Fixture.photo_urls)
     /\ map embed_image extra = map Some (firstn 4 Fixture.photo_urls))
  /\ lambda_handler Scenario.up (Fixture.signed Scenario.bad_second_photo)
     = ([], Raise (KeyError (JStr "url"))).
Proof.
  split.
  - refine (proj1 (checkin_reads_four_attachments Scenario.up _
                     (Fixture.bindings Scenario.bad_fifth_photo)
                     [("location", JStr "Madison Square Garden")]
                     "Madison Square Garden" (JStr "alice") _ _ _ _ _ _ _ _) _ _).
    + split; [vm_compute; reflexivity|]. eexists. split; reflexivity.
    + reflexivity.
    + do 2 eexists. split; [reflexivity|]. split; [reflexivity|].
      repeat constructor; eexists; (split; [reflexivity|]); split; reflexivity.
    + reflexivity.
    + discriminate.
    + eexists. split; [reflexivity|]. cbn. eexists. split; reflexivity.
    + reflexivity.
    + repeat constructor; eexists; split; reflexivity.
  - refine (proj2 (checkin_reads_four_attachments Scenario.up _
                     (Fixture.bindings Scenario.bad_second_photo)
                     [("location", JStr "Madison Square Garden")]
                     "Madison Square Garden" (JStr "alice") _ _ _ _ _ _ _ _)
                  [Fixture.attachment 1] [JStr "https://cdn.example/1.png"]
                  [("id", JStr "2")] [] _ _ _).
    + split; [vm_compute; reflexivity|]. eexists. split; reflexivity.
    + reflexivity.
    + do 2 eexists. split; [reflexivity|]. split; [reflexivity|].
      repeat constructor; eexists; (split; [reflexivity|]); split; reflexivity.
    + reflexivity.
    + discriminate.
    + eexists. split; [reflexivity|]. cbn. eexists. split; reflexivity.
    + reflexivity.
    + reflexivity.
    + repeat constructor; eexists; split; reflexivity.
    + reflexivity.
Defined.

Lemma scan_options_app (st : json * json) (xs ys : list json) :
  scan_options st (xs ++ ys) = rbind (scan_options st xs) (fun st' => scan_options st' ys).
Proof.
  revert st. induction xs as [|x xs IH]; intros st; cbn [scan_options app rbind].
  - reflexivity.
  - cbn [mbind result_bind]. destruct (scan_option st x); cbn [rbind]; [apply IH | reflexivity].
Qed.

(** X9: in the loop over the options a later option replaces an earlier one
    of the same name, and an option of another name than [location] and
    [message] (such as the registered [photo]) changes nothing, wherever it
    stands. *)
Theorem options_loop (st : json * json) (before after : list json)
    (nvs : list (string * json)) (o : json) (name : string) (value : json) :
  Forall2 is_option before nvs -> is_option o (name, value) ->
  (name <> "location" -> name <> "message" ->
   scan_options st (before ++ o :: after) = scan_options st (before ++ after))
  /\ (name = "location" ->
      forall later, Forall2 is_option after later ->
                    supplied "location" later = None ->
                    exists message, scan_options st (before ++ o :: after) = Ok (value, message))
  /\ (name = "message" ->
      forall later, Forall2 is_option after later ->
                    supplied "message" later = None ->
                    exists location, scan_options st (before ++ o :: after) = Ok (location, value)).
Proof.
  intros Hb Ho. rewrite !scan_options_app, (scan_options_supplied before nvs st Hb).
  cbn [rbind scan_options mbind result_bind].
  rewrite (scan_option_is_option _ o (name, value) Ho). cbn [fst snd rbind].
  split; [|split].
  - intros H1 H2.
    rewrite (proj2 (String.eqb_neq _ _) H1), (proj2 (String.eqb_neq _ _) H2).
    reflexivity.
  - intros -> later Hl Hnone.
    cbn [String.eqb Ascii.eqb Bool.eqb mbind result_bind rbind].
    rewrite (scan_options_supplied after later _ Hl), Hnone. cbn. eauto.
  - intros -> later Hl Hnone.
    cbn [String.eqb Ascii.eqb Bool.eqb mbind result_bind rbind].
    rewrite (scan_options_supplied after later _ Hl), Hnone. cbn. eauto.
Qed.

Lemma options_loop_witness :
  let photo := Fixture.option_of "photo" (JStr "77") in
  let paris := Fixture.option_of "location" (JStr "Paris") in
  scan_options (JNull, JStr "") [paris; photo; Fixture.garden]
  = scan_options (JNull, JStr "") [paris; Fixture.garden]
  /\ exists message,
       scan_options (JNull, JStr "") [paris; Fixture.garden; photo]
       = Ok (JStr "Madison Square Garden", message).
Proof.
  cbv zeta. split.
  - refine (proj1 (options_loop (JNull, JStr "") [Fixture.option_of "location" (JStr "Paris")]
                     [Fixture.garden] [("location", JStr "Paris")]
                     (Fixture.option_of "photo" (JStr "77")) "photo" (JStr "77") _ _) _ _).
    + repeat constructor. eexists. split; [reflexivity|]. split; reflexivity.
    + eexists. split; [reflexivity|]. split; reflexivity.
    + discriminate.
    + discriminate.
  - refine (proj1 (proj2 (options_loop (JNull, JStr "")
                     [Fixture.option_of "location" (JStr "Paris")]
                     [Fixture.option_of "photo" (JStr "77")] [("location", JStr "Paris")]
                     Fixture.garden "location" (JStr "Madison Square Garden") _ _))
                  eq_refl [("photo", JStr "77")] _ eq_refl).
    + repeat constructor. eexists. split; [reflexivity|]. split; reflexivity.
    + eexists. split; [reflexivity|]. split; reflexivity.
    + repeat constructor. eexists. split; [reflexivity|]. split; reflexivity.
Defined.

(** ** Requests that are not answered, or answered with 400 *)

(** X10: an auto-complete request without [data] is not answered with an
    empty choice list: [body["data"]] raises [KeyError] and no call is made
    (a command without [data], read with [get], is answered with the
    instructions). *)
Theorem autocomplete_without_data (W : world) ev b :
  verified_interaction W ev b -> interaction_type b 4 ->
  Py.assoc "data" b = None ->
  lambda_handler W ev = ([], Raise (KeyError (JStr "data"))).
Proof.
  intros Hv Ht Hd. rewrite (handler_verified W ev b Hv).
  unfold interaction_type in Ht. rewrite Ht. run.
  unfold handle_autocomplete. cbn [Py.subscript]. rewrite Hd. reflexivity.
Qed.

Lemma autocomplete_without_data_witness :
  lambda_handler Scenario.up (Fixture.signed Scenario.autocomplete_no_data)
  = ([], Raise (KeyError (JStr "data"))).
Proof.
  apply (autocomplete_without_data Scenario.up _
           (Fixture.bindings Scenario.autocomplete_no_data)).
  - split; [vm_compute; reflexivity|]. eexists. split; reflexivity.
  - reflexivity.
  - reflexivity.
Defined.

(** X11: a verified request is read before it is answered: without a body
    the handler ends in [KeyError], with a body that [json.loads] refuses in
    the error of the decoder, and with a body that decodes to something
    other than an object in [AttributeError]; in each case no call is made
    and there is no response. *)
Theorem verified_body_must_be_an_object (W : world) (ev : event) :
  verify_signature W ev = Ok true ->
  (ev_body ev = None -> lambda_handler W ev = ([], Raise (KeyError (JStr "body"))))
  /\ (forall raw e, ev_body ev = Some raw -> json_loads W raw = Raise e ->
                    lambda_handler W ev = ([], Raise e))
  /\ (forall raw v, ev_body ev = Some raw -> json_loads W raw = Ok v ->
                    (forall b, v <> JObj b) ->
                    lambda_handler W ev = ([], Raise AttributeError)).
Proof.
  intros Hv. unfold lambda_handler, event_body. rewrite Hv. run.
  split; [|split].
  - intros ->. reflexivity.
  - intros raw e -> He. run. rewrite He. reflexivity.
  - intros raw v -> Hl Hno. run. rewrite Hl. run.
    destruct v; try reflexivity. now destruct (Hno kvs).
Qed.

Lemma verified_body_must_be_an_object_witness :
  lambda_handler Scenario.up (Fixture.signed Scenario.array_body)
  = ([], Raise AttributeError).
Proof.
  destruct (verified_body_must_be_an_object Scenario.up
              (Fixture.signed Scenario.array_body)) as (_ & _ & H).
  - vm_compute. reflexivity.
  - apply (H (Fixture.dumps Scenario.array_body) Scenario.array_body);
      [reflexivity | reflexivity | discriminate].
Defined.

(** X12: a verified body whose [type] is absent, null, a string (even ["2"]),
    a list, an object, [false], or an integer other than 1, 2 and 4 is
    answered with status 400 and the body [{"error": "Unhandled interaction
    type"}], without any call. *)
Theorem other_types_get_400 (W : world) ev b :
  verified_interaction W ev b -> other_type (Py.assoc "type" b) ->
  lambda_handler W ev = ([], Ok (unhandled W))
  /\ statusCode (unhandled W) = 400
  /\ resp_body (unhandled W)
     = json_dumps W (JObj [("error", JStr "Unhandled interaction type")]).
Proof.
  intros Hv Ht. rewrite (handler_verified W ev b Hv).
  split; [|split; reflexivity]. cbv zeta.
  destruct (Py.assoc "type" b) as [[| [|] |n| | |]|]; cbn in Ht |- *;
    try reflexivity; try discriminate.
  destruct Ht as (H1 & H2 & H4).
  rewrite !(proj2 (Z.eqb_neq _ _)) by assumption. reflexivity.
Qed.

Lemma other_types_get_400_witness :
  lambda_handler Scenario.up (Fixture.signed Scenario.string_type)
  = ([], Ok (unhandled Scenario.up))
  /\ lambda_handler Scenario.up (Fixture.signed Scenario.no_type)
     = ([], Ok (unhandled Scenario.up)).
Proof.
  split.
  - apply (other_types_get_400 Scenario.up _ (Fixture.bindings Scenario.string_type)).
    + split; [vm_compute; reflexivity|]. eexists. split; reflexivity.
    + exact I.
  - apply (other_types_get_400 Scenario.up _ (Fixture.bindings Scenario.no_type)).
    + split; [vm_compute; reflexivity|]. eexists. split; reflexivity.
    + exact I.
Defined.

(** ** The suggestion client, further *)

(** X13: the status code of the answer of the place service is not looked
    at: two answers with the same body give the same suggestions, be the
    status 200 or an error. *)
Theorem suggestions_ignore_status (W W' : world) (input : json) (r r' : http_response) :
  (forall s, json_loads W s = json_loads W' s) ->
  Py.truthy input = true ->
  requests_get W places_url (places_params W input) = Ok r ->
  requests_get W' places_url (places_params W' input) = Ok r' ->
  text r = text r' ->
  outcome (get_location_suggestions W input)
  = outcome (get_location_suggestions W' input).
Proof.
  intros Hloads Ht Hr Hr' Htext.
  rewrite (suggestions_outcome W input Ht), (suggestions_outcome W' input Ht).
  rewrite Hr, Hr'. cbn [mbind result_bind rbind]. now rewrite Htext, Hloads.
Qed.

Lemma suggestions_ignore_status_witness :
  outcome (get_location_suggestions
             (Scenario.world_of (Scenario.answer 503 (Fixture.dumps Fixture.seven_places))
                                (Scenario.answer 204 ""))
             (JStr "Mad"))
  = outcome (get_location_suggestions Scenario.up (JStr "Mad")).
Proof.
  eapply suggestions_ignore_status; reflexivity.
Defined.

(** X14: one prediction without [description] among the first five makes
    the whole lookup end in [KeyError], also when the predictions before it
    are in order. *)
Theorem suggestions_need_descriptions (W : world) (input : json) r d ps
    (good : list json) (ds : list json) f (rest : list json) :
  Py.truthy input = true ->
  requests_get W places_url (places_params W input) = Ok r ->
  json_loads W (text r) = Ok (JObj d) ->
  Py.assoc "predictions" d = Some (JArr ps) ->
  firstn 5 ps = (good ++ JObj f :: rest)%list ->
  Forall2 is_prediction good ds ->
  Py.assoc "description" f = None ->
  outcome (get_location_suggestions W input) = Raise (KeyError (JStr "description")).
Proof.
  intros Ht Hr Hd Hp Hsplit Hgood Hf.
  rewrite (suggestions_outcome W input Ht), Hr. cbn [mbind result_bind rbind].
  rewrite Hd. cbn [mbind result_bind rbind Py.get]. rewrite Hp. run.
  rewrite Hsplit, rmap_list_app, (rmap_list_descriptions _ _ Hgood).
  cbn [rbind rmap_list Py.subscript]. rewrite Hf. reflexivity.
Qed.

Lemma suggestions_need_descriptions_witness :
  outcome (get_location_suggestions
             (Scenario.world_of (Scenario.answer 200 (Fixture.dumps Scenario.broken_places))
                                (Scenario.answer 204 ""))
             (JStr "Mad"))
  = Raise (KeyError (JStr "description")).
Proof.
  eapply (suggestions_need_descriptions _ _ _ _ _
            [Fixture.place "Madison Square Garden"] [JStr "Madison Square Garden"]
            [("place_id", JStr "x")] []); try reflexivity.
  repeat constructor. eexists. split; reflexivity.
Defined.

(** ** Logging *)

Lemma LOG_LEVELS_lookup (k : string) :
  LOG_LEVELS !! k
  = if decide (k = "DEBUG") then Some 10
    else if decide (k = "INFO") then Some 20
    else if decide (k = "WARN") then Some 30
    else if decide (k = "ERROR") then Some 40
    else None.
Proof.
  unfold LOG_LEVELS. rewrite !lookup_insert, lookup_empty.
  repeat case_decide; congruence.
Qed.

Lemma LOG_LEVELS_range (k : string) (n : Z) :
  LOG_LEVELS !! k = Some n -> n = 10 \/ n = 20 \/ n = 30 \/ n = 40.
Proof.
  rewrite LOG_LEVELS_lookup. repeat case_decide; intros [= <-]; auto.
Qed.

Section Logging_facts.
Context (upper : string -> string) (LOG_LEVEL : option string).

Lemma threshold_range :
  let n := CURRENT_LOG_LEVEL_NUM upper LOG_LEVEL in
  n = 10 \/ n = 20 \/ n = 30 \/ n = 40.
Proof.
  cbv zeta. unfold CURRENT_LOG_LEVEL_NUM.
  destruct (LOG_LEVELS !! CURRENT_LOG_LEVEL upper LOG_LEVEL) as [n|] eqn:Hn.
  - exact (LOG_LEVELS_range _ _ Hn).
  - right. left. reflexivity.
Qed.

End Logging_facts.

(** X15: the threshold of the log is always that of one of the four levels:
    when [LOG_LEVEL], in upper case, names none of them (["WARNING"], say),
    or is not set and ["INFO"] is its own upper case, the threshold is that
    of INFO, 20. *)
Theorem log_threshold_falls_back (upper : string -> string) (LOG_LEVEL : option string) :
  let n := CURRENT_LOG_LEVEL_NUM upper LOG_LEVEL in
  (n = 10 \/ n = 20 \/ n = 30 \/ n = 40)
  /\ (LOG_LEVELS !! upper (default "INFO" LOG_LEVEL) = None -> n = 20)
  /\ (LOG_LEVEL = None -> upper "INFO" = "INFO" -> n = 20).
Proof.
  cbv zeta. split; [apply threshold_range|]. unfold CURRENT_LOG_LEVEL_NUM, CURRENT_LOG_LEVEL.
  split.
  - intros H. unfold DEFAULT_LOG_LEVEL. now rewrite H.
  - intros -> Hup. cbn [default from_option id]. unfold DEFAULT_LOG_LEVEL.
    now rewrite Hup.
Qed.

Lemma log_threshold_falls_back_witness :
  CURRENT_LOG_LEVEL_NUM Scenario.upper (Some "warning") = 20
  /\ CURRENT_LOG_LEVEL_NUM Scenario.upper None = 20
  /\ CURRENT_LOG_LEVEL_NUM Scenario.upper (Some "warn") = 30.
Proof.
  split; [|split].
  - apply (proj1 (proj2 (log_threshold_falls_back Scenario.upper (Some "warning")))).
    vm_compute. reflexivity.
  - apply (proj2 (proj2 (log_threshold_falls_back Scenario.upper None)));
      reflexivity.
  - vm_compute. reflexivity.
Defined.

(** X16: a message logged under a level that is not one of the four is
    never printed, whatever [LOG_LEVEL] is. *)
Theorem log_drops_unknown_levels (upper : string -> string) (LOG_LEVEL : option string)
    (message level : string) :
  LOG_LEVELS !! upper level = None ->
  log upper LOG_LEVEL message level = [].
Proof.
  intros H. unfold log. rewrite H. cbn [default from_option id].
  pose proof (threshold_range upper LOG_LEVEL) as Hn. cbv zeta in Hn.
  destruct (Z.leb_spec (CURRENT_LOG_LEVEL_NUM upper LOG_LEVEL) 0); [lia | reflexivity].
Qed.

Lemma log_drops_unknown_levels_witness :
  log Scenario.upper (Some "DEBUG") "disk full" "critical" = [].
Proof. apply log_drops_unknown_levels. vm_compute. reflexivity. Defined.

(** X17: the levels are ordered: when a message of one level is printed,
    so is every message of a level that is not lower, as the one line
    [[LEVEL] message]; a message of level ERROR is printed under every
    [LOG_LEVEL]. *)
Theorem log_is_monotone (upper : string -> string) (LOG_LEVEL : option string)
    (message message' level level' : string) (n n' : Z) :
  LOG_LEVELS !! upper level = Some n ->
  LOG_LEVELS !! upper level' = Some n' ->
  n <= n' ->
  (log upper LOG_LEVEL message level <> [] ->
   log upper LOG_LEVEL message' level' = ["[" +:+ upper level' +:+ "] " +:+ message'])
  /\ (n' = 40 ->
      log upper LOG_LEVEL message' level' = ["[" +:+ upper level' +:+ "] " +:+ message']).
Proof.
  intros H H' Hle. unfold log. rewrite H, H'. cbn [default from_option id].
  pose proof (threshold_range upper LOG_LEVEL) as Hn. cbv zeta in Hn.
  split.
  - destruct (Z.leb_spec (CURRENT_LOG_LEVEL_NUM upper LOG_LEVEL) n); [|contradiction].
    intros _. destruct (Z.leb_spec (CURRENT_LOG_LEVEL_NUM upper LOG_LEVEL) n');
      [reflexivity | lia].
  - intros ->. destruct (Z.leb_spec (CURRENT_LOG_LEVEL_NUM upper LOG_LEVEL) 40);
      [reflexivity | lia].
Qed.

Lemma log_is_monotone_witness :
  log Scenario.upper (Some "error") "bad signature" "Error" = ["[ERROR] bad signature"].
Proof.
  refine (proj2 (log_is_monotone Scenario.upper (Some "error") "" "bad signature"
                   "warn" "Error" 30 40 _ _ _) eq_refl);
    [vm_compute; reflexivity | vm_compute; reflexivity | lia].
Defined.

(** X18: the return of the Lambda, logged at the default level DEBUG, is
    printed exactly when [LOG_LEVEL] is DEBUG in some case; with
    [LOG_LEVEL] unset it is not printed. *)
Theorem log_return_needs_debug (upper : string -> string) (LOG_LEVEL : option string)
    (W : world) (r : response) :
  upper "DEBUG" = "DEBUG" ->
  (log_return upper LOG_LEVEL W r "DEBUG" <> []
   <-> upper (default "INFO" LOG_LEVEL) = "DEBUG")
  /\ (upper (default "INFO" LOG_LEVEL) = "DEBUG" ->
      log_return upper LOG_LEVEL W r "DEBUG"
      = ["[DEBUG] Completed with " +:+ json_dumps W (response_dict r)]).
Proof.
  intros Hup. unfold log_return, log. rewrite Hup.
  change (default 0 (LOG_LEVELS !! "DEBUG")) with 10.
  unfold CURRENT_LOG_LEVEL_NUM, CURRENT_LOG_LEVEL, DEFAULT_LOG_LEVEL.
  rewrite (LOG_LEVELS_lookup (upper _)).
  change (LOG_LEVELS !!! "INFO") with 20.
  set (u := upper (default "INFO" LOG_LEVEL)).
  destruct (decide (u = "DEBUG")) as [Hu | Hu].
  - cbn. split; [split; [auto | discriminate] | reflexivity].
  - assert ((default 20
               (if decide (u = "INFO") then Some 20
                else if decide (u = "WARN") then Some 30
                else if decide (u = "ERROR") then Some 40 else None) <=? 10) = false)
      as -> by (repeat case_decide; reflexivity).
    split; [split; [intros Hc; now destruct Hc | contradiction] | contradiction].
Qed.

Lemma log_return_needs_debug_witness :
  log_return Scenario.upper None Scenario.up acknowledgment "DEBUG" = []
  /\ log_return Scenario.upper (Some "debug") Scenario.up acknowledgment "DEBUG" <> [].
Proof.
  split.
  - destruct (log_return Scenario.upper None Scenario.up acknowledgment "DEBUG")
      as [|line lines] eqn:E; [reflexivity|].
    assert (Scenario.upper (default "INFO" None) = "DEBUG") as H.
    { apply (proj1 (log_return_needs_debug Scenario.upper None Scenario.up
                      acknowledgment eq_refl)).
      rewrite E. discriminate. }
    discriminate H.
  - apply (proj1 (log_return_needs_debug Scenario.upper (Some "debug") Scenario.up
                    acknowledgment eq_refl)).
    reflexivity.
Defined.

(** ** Secrets *)

(** X19: a secret that decodes to a JSON object always loads: each of the
    token, the application id, the public key and the Google Maps key is
    the entry of its name, and [None] when the secret has no such entry;
    the load does not fail for a missing entry. *)
Theorem secrets_default_to_none (W : world)
    (get_secret_value : option string -> result (option string))
    (arn : option string) (s : string) (secret : list (string * json)) :
  get_secret_value arn = Ok (Some s) ->
  json_loads W s = Ok (JObj secret) ->
  get_discord_secrets W get_secret_value arn
  = Ok (default JNull (Py.assoc "token" secret),
        default JNull (Py.assoc "appId" secret),
        default JNull (Py.assoc "publicKey" secret))
  /\ get_google_secrets W get_secret_value arn
     = Ok (default JNull (Py.assoc "GOOGLE_MAPS_API_KEY" secret))
  /\ (Py.assoc "publicKey" secret = None ->
      exists token appId,
        get_discord_secrets W get_secret_value arn = Ok (token, appId, JNull)).
Proof.
  intros Hget Hloads. unfold get_discord_secrets, get_google_secrets, load_secret.
  rewrite Hget. cbn [mbind result_bind rbind]. rewrite Hloads.
  cbn [mbind result_bind rbind Py.get mret result_ret].
  split; [reflexivity|]. split; [reflexivity|].
  intros ->. eauto.
Qed.

Lemma secrets_default_to_none_witness :
  get_discord_secrets Scenario.up
    (fun _ => Ok (Some (Fixture.dumps Scenario.no_type))) (Some "arn:discord")
  = Ok (JStr "tok", JNull, JNull).
Proof.
  exact (proj1 (secrets_default_to_none Scenario.up
                  (fun _ => Ok (Some (Fixture.dumps Scenario.no_type)))
                  (Some "arn:discord") _ (Fixture.bindings Scenario.no_type)
                  eq_refl eq_refl)).
Defined.

(** X20: the loads of the secrets fail, and the module does not start,
    when the secret cannot be fetched (with the error of the client), when
    it is a binary secret without [SecretString] ([KeyError]), when the
    string is not JSON (the error of the decoder), and when it decodes to
    something other than an object ([AttributeError]). *)
Theorem secrets_fail_to_load (W : world)
    (get_secret_value : option string -> result (option string))
    (arn : option string) :
  let failing e :=
    get_discord_secrets W get_secret_value arn = Raise e
    /\ get_google_secrets W get_secret_value arn = Raise e in
  (forall e, get_secret_value arn = Raise e -> failing e)
  /\ (get_secret_value arn = Ok None -> failing (KeyError (JStr "SecretString")))
  /\ (forall s e, get_secret_value arn = Ok (Some s) ->
                  json_loads W s = Raise e -> failing e)
  /\ (forall s v, get_secret_value arn = Ok (Some s) ->
                  json_loads W s = Ok v -> (forall b, v <> JObj b) ->
                  failing AttributeError).
Proof.
  cbv zeta. unfold get_discord_secrets, get_google_secrets, load_secret.
  split; [|split; [|split]].
  - intros e ->. split; reflexivity.
  - intros ->. split; reflexivity.
  - intros s e -> He. cbn [mbind result_bind rbind]. rewrite He. split; reflexivity.
  - intros s v -> Hv Hno. cbn [mbind result_bind rbind]. rewrite Hv.
    destruct v; try (split; reflexivity). now destruct (Hno kvs).
Qed.

Lemma secrets_fail_to_load_witness :
  get_google_secrets Scenario.up (fun _ => Ok None) None
  = Raise (KeyError (JStr "SecretString"))
  /\ get_discord_secrets Scenario.up
       (fun _ => Ok (Some (Fixture.dumps Scenario.array_body))) None
     = Raise AttributeError.
Proof.
  split.
  - apply (proj1 (proj2 (secrets_fail_to_load Scenario.up (fun _ => Ok None) None))).
    reflexivity.
  - refine (proj1 (proj2 (proj2 (proj2
              (secrets_fail_to_load Scenario.up
                 (fun _ => Ok (Some (Fixture.dumps Scenario.array_body))) None)))
              _ Scenario.array_body eq_refl eq_refl _)).
    discriminate.
Defined.

(** ** The registration script *)

(** X21: when [DISCORD_BOT_TOKEN] or [DISCORD_APP_ID] is not set, or is set
    to the empty string, the script makes no request: it prints the one line
    that names the two variables and ends. *)
Theorem registration_needs_both_variables (W : world)
    (DISCORD_BOT_TOKEN DISCORD_APP_ID : option string) :
  DISCORD_BOT_TOKEN = None \/ DISCORD_BOT_TOKEN = Some ""
  \/ DISCORD_APP_ID = None \/ DISCORD_APP_ID = Some "" ->
  register_main W DISCORD_BOT_TOKEN DISCORD_APP_ID = ([Printed missing_line], Ok ())
  /\ contains missing_line "Missing DISCORD_BOT_TOKEN or DISCORD_APP_ID".
Proof.
  intros H. split; [|apply containsb_spec; reflexivity].
  unfold register_main.
  assert (unset DISCORD_BOT_TOKEN || unset DISCORD_APP_ID = true) as ->; [|reflexivity].
  destruct H as [-> | [-> | [-> | ->]]]; cbn; auto using orb_true_r.
Qed.

Lemma registration_needs_both_variables_witness :
  register_main Scenario.up (Some "token") (Some "") = ([Printed missing_line], Ok ()).
Proof.
  apply (registration_needs_both_variables Scenario.up (Some "token") (Some "")).
  auto.
Defined.

(** X22: with both variables set, the script makes exactly one request, the
    POST of the command to [applications/<app id>/commands] with the header
    [Authorization: Bot <token>], before it prints anything.  It reports
    success, in one line, exactly when the status of the answer is 200 or
    201; for any other status it prints the status and the text of the answer
    and still ends normally; when the request raises, nothing is printed and
    the exception ends the script. *)
Theorem registration_posts_once (W : world) (token app_id : string) :
  token <> "" -> app_id <> "" ->
  let run := register_main W (Some token) (Some app_id) in
  let url := "https://discord.com/api/v10/applications/" +:+ app_id +:+ "/commands" in
  let headers := [("Authorization", "Bot " +:+ token);
                  ("Content-Type", "application/json")] in
  exists lines,
    run.1 = Requested (RequestsPost url headers command_data) :: map Printed lines
    /\ (forall e, requests_post W url headers command_data = Raise e ->
                  lines = [] /\ run.2 = Raise e)
    /\ (forall r, requests_post W url headers command_data = Ok r ->
                  run.2 = Ok ()
                  /\ (status_code r = 200 \/ status_code r = 201 ->
                      lines = [registered_line])
                  /\ (status_code r <> 200 -> status_code r <> 201 ->
                      lines = [failed_line (status_code r); "Response: " +:+ text r])).
Proof.
  intros Ht Ha. cbv zeta. unfold register_main.
  assert (unset (Some token) || unset (Some app_id) = false) as ->.
  { cbn. destruct token, app_id; try contradiction; reflexivity. }
  cbn [default from_option id]. unfold register_checkin_slash_command.
  change (commands_url app_id)
    with ("https://discord.com/api/v10/applications/" +:+ app_id +:+ "/commands").
  change (registration_headers token)
    with [("Authorization", "Bot " +:+ token); ("Content-Type", "application/json")].
  destruct (requests_post W _ _ command_data) as [r|e].
  - destruct (Z.eqb_spec (status_code r) 200) as [H200|H200];
      [|destruct (Z.eqb_spec (status_code r) 201) as [H201|H201]]; cbn [orb fst snd].
    + exists [registered_line]. split; [reflexivity|]. split; [discriminate|].
      intros r' [= <-]. split; [reflexivity|]. split; [reflexivity | contradiction].
    + exists [registered_line]. split; [reflexivity|]. split; [discriminate|].
      intros r' [= <-]. split; [reflexivity|]. split; [reflexivity | contradiction].
    + exists [failed_line (status_code r); "Response: " +:+ text r].
      split; [reflexivity|]. split; [discriminate|].
      intros r' [= <-]. split; [reflexivity|]. split; [intros [?|?]; contradiction | reflexivity].
  - exists []. split; [reflexivity|]. split; [|discriminate].
    intros e' [= <-]. split; reflexivity.
Qed.

Lemma registration_posts_once_witness :
  register_main Scenario.callback_refuses (Some "token") (Some "42")
  = ([Requested (RequestsPost "https://discord.com/api/v10/applications/42/commands"
                   [("Authorization", "Bot token"); ("Content-Type", "application/json")]
                   command_data);
      Printed (failed_line 400); Printed "Response: {}"],
     Ok ()).
Proof.
  destruct (registration_posts_once Scenario.callback_refuses "token" "42")
    as (lines & Hcalls & _ & Hok); [discriminate | discriminate |].
  destruct (Hok {| status_code := 400; text := "{}" |} eq_refl) as (Hres & _ & Hfail).
  rewrite (surjective_pairing (register_main _ _ _)), Hcalls, Hres, Hfail;
    [reflexivity | discriminate | discriminate].
Defined.
